(** * Vertex AI SDK: experiment models (save, load, register) and the
      vertex_ai configuration delegate

    A shallow embedding of
    - google/cloud/aiplatform/metadata/_models.py
    - google/cloud/aiplatform/private_preview/vertex_ai/initializer.py

    Python values are an inductive type, the interpreter state and the cloud
    services the code talks to are one record ([World]), and the code runs in
    a state-and-exception monad over it.  Every call to a collaborator leaves
    an [Event] in the world's trace, so that frame properties (what a call
    did NOT do) can be stated. *)

From Stdlib Require Import ZArith String Ascii List.
From Stdlib Require Import Floats.SpecFloat.
From stdpp Require Import base strings gmap list pretty.

Local Open Scope string_scope.
Set Warnings "-register-all".

(** ** Python values *)

(** A class, as far as the code looks at one: [__module__], [__name__] and
    the fully qualified names of the classes of its [__mro__]. *)
Record PyClass := {
  cls_module : string;
  cls_name : string;
  cls_mro : list string
}.

(** The values an input example is made of.  A [PyDict] lists its items in
    insertion order (keys are distinct); an [NdArray] is given by its entries
    along the first axis, each entry as [tolist()] renders it; a [DataFrame]
    by its columns, in order. *)
Inductive pyval : Type :=
| PyNone
| PyBool (b : bool)
| PyInt (n : Z)
| PyFloat (x : spec_float)
| PyComplex (re im : spec_float)
| PyStr (s : string)
| PyBytes (s : string)
| NpGeneric (dtype : string) (v : string)
| PyList (items : list pyval)
| PyTuple (items : list pyval)
| PyDict (items : list (pyval * pyval))
| NdArray (rows : list pyval)
| DataFrame (columns : list (pyval * list pyval))
| PyObject (cls : PyClass).

(** Any object that can be handed to [save_model]: its class and its
    instance dictionary (for an estimator, the fitted parameters). *)
Record PyInstance := {
  py_class : PyClass;
  py_dict : list (string * pyval)
}.

Definition kwargs : Type := list (string * pyval).

(** [isinstance(x, list)], [isinstance(x, dict)], [isinstance(x, np.ndarray)],
    [isinstance(x, pd.DataFrame)]. *)
Definition isinstance_list (x : pyval) : bool :=
  match x with PyList _ => true | _ => false end.

Definition isinstance_dict (x : pyval) : bool :=
  match x with PyDict _ => true | _ => false end.

Definition isinstance_ndarray (x : pyval) : bool :=
  match x with NdArray _ => true | _ => false end.

Definition isinstance_DataFrame (x : pyval) : bool :=
  match x with DataFrame _ => true | _ => false end.

(** [np.isscalar]: Python numbers, [str], [bytes] and NumPy scalars; [None],
    containers, arrays and other objects are not scalars. *)
Definition np_isscalar (x : pyval) : bool :=
  match x with
  | PyBool _ | PyInt _ | PyFloat _ | PyComplex _ _
  | PyStr _ | PyBytes _ | NpGeneric _ _ => true
  | _ => false
  end.

(** [isinstance(obj, C)] for a class [C] given by its qualified name. *)
Definition isinstance (obj : PyInstance) (qualname : string) : bool :=
  existsb (String.eqb qualname) (cls_mro (py_class obj)).

(** Truth value of an [Optional[str]]: [None] and the empty string are
    false. *)
Definition truthy (s : option string) : bool :=
  match s with
  | Some s => negb (s =? EmptyString)
  | None => false
  end.

(** [a or b] on an [Optional] first operand and a [str] second operand. *)
Definition or_else (a : option string) (b : string) : string :=
  match a with
  | Some s => if s =? EmptyString then b else s
  | None => b
  end.

(** ** Exceptions *)

Inductive exn :=
| ValueError (msg : string)
| ImportError (msg : string)
| KeyError (key : string)
| TypeError (msg : string)
| AttributeError (msg : string)
| FileNotFoundError (path : string)
| UnpicklingError
| NotFound (what : string).

(** ** Paths *)

Fixpoint endswith (s suffix : string) : bool :=
  (s =? suffix) ||
  match s with
  | EmptyString => false
  | String _ s' => endswith s' suffix
  end.

Fixpoint removeprefix (pre s : string) : option string :=
  match pre with
  | EmptyString => Some s
  | String a pre' =>
      match s with
      | String b s' => if Ascii.eqb a b then removeprefix pre' s' else None
      | EmptyString => None
      end
  end.

Module os.
Module path.

(** [posixpath.join] on two components. *)
Definition join (a b : string) : string :=
  if String.prefix "/" b then b
  else if (a =? EmptyString) || endswith a "/" then a +:+ b
  else a +:+ "/" +:+ b.

(** The name of [p] relative to the directory [dir], when [p] lies under
    it. *)
Definition relative_to (dir p : string) : option string :=
  removeprefix (dir +:+ "/") p.

End path.
End os.

(** ** Records of the SDK *)

Record Credentials := { token : string }.

Module initializer.

(** Modelled from the spec: [aiplatform.initializer] is not among the sources;
    the spec lists the global process configuration as project, location,
    credentials and staging bucket defaults. *)
Record GlobalConfig := {
  project : string;
  location : string;
  staging_bucket : option string;
  credentials : option Credentials
}.

End initializer.

Module schema_utils.

(** Modelled from the spec: [schema_utils.PredictSchemata] is not among the
    sources; [save_model] builds it from the one field below, the spec's
    prediction-input schema reference. *)
Record PredictSchemata := { instance_schema_uri : string }.

End schema_utils.

Module google_artifact_schema.

(** Modelled from the spec: [google_artifact_schema.ExperimentModel] is not
    among the sources; the spec's model artifact record holds the framework
    name and version, the artifact file name, the model's class name, the
    optional schema reference, the storage location, the optional display name
    and the identifier.  The first eight fields are the arguments the
    constructor is called with; the last four are filled in by [create], and
    [register_model] reads three of them. *)
Record ExperimentModel := {
  framework_name : string;
  framework_version : string;
  model_file : string;
  model_class : string;
  predict_schemata : option schema_utils.PredictSchemata;
  artifact_id : option string;
  uri : string;
  display_name : option string;
  metadata_store_id : option string;
  project : string;
  location : string;
  credentials : option Credentials
}.

End google_artifact_schema.

Abbreviation ExperimentModel := google_artifact_schema.ExperimentModel.

Module models.

(** Modelled from the spec: [models.Model] is not among the sources.  This is
    the request [models.Model.upload] receives; [passthrough] holds the
    serving, schema, explanation and versioning arguments that
    [register_model] hands on untouched. *)
Record UploadRequest := {
  serving_container_image_uri : option string;
  artifact_uri : string;
  display_name : option string;
  project : string;
  location : string;
  credentials : option Credentials;
  sync : option bool;
  passthrough : kwargs
}.

(** The handle of a registered model. *)
Record Model := { request : UploadRequest }.

End models.

(** ** The world *)

(** What the collaborators were asked to do, in order. *)
Inductive Event :=
| BucketExists (name : string)
| CreateBucket (name project location : string)
| TimestampedUniqueName (name : string)
| UploadToGcs (source_path destination_uri : string)
| DownloadFromGcs (source_uri destination_path : string)
| CreateArtifact (metadata_store_id : option string) (resource_id : string)
| GetExperimentModel (artifact_id : string)
| LogInfo (msg : string)
| LogWarning (msg : string)
| PrebuiltContainerLookup (framework framework_version region accelerator : string)
| ModelUpload (request : models.UploadRequest).

(** The interpreter, the local disk and the remote services. *)
Record World := {
  (** the packages that can be imported, each with its [__version__] *)
  modules : gmap string string;
  global_config : initializer.GlobalConfig;
  (** local files, by path *)
  files : gmap string string;
  tmp_count : nat;
  (** object storage: buckets and objects, by URI *)
  buckets : gset string;
  objects : gmap string string;
  (** metadata store: artifacts, by identifier *)
  artifacts : gmap string ExperimentModel;
  (** source of time stamps and generated names *)
  ticks : nat;
  trace : list Event
}.

Definition set_global_config (c : initializer.GlobalConfig) (w : World) : World :=
  {| modules := modules w;
     global_config := c; files := files w; tmp_count := tmp_count w;
     buckets := buckets w; objects := objects w; artifacts := artifacts w;
     ticks := ticks w; trace := trace w |}.

Definition set_files (f : gmap string string) (w : World) : World :=
  {| modules := modules w;
     global_config := global_config w; files := f; tmp_count := tmp_count w;
     buckets := buckets w; objects := objects w; artifacts := artifacts w;
     ticks := ticks w; trace := trace w |}.

Definition set_tmp_count (n : nat) (w : World) : World :=
  {| modules := modules w;
     global_config := global_config w; files := files w; tmp_count := n;
     buckets := buckets w; objects := objects w; artifacts := artifacts w;
     ticks := ticks w; trace := trace w |}.

Definition set_buckets (b : gset string) (w : World) : World :=
  {| modules := modules w;
     global_config := global_config w; files := files w; tmp_count := tmp_count w;
     buckets := b; objects := objects w; artifacts := artifacts w;
     ticks := ticks w; trace := trace w |}.

Definition set_objects (o : gmap string string) (w : World) : World :=
  {| modules := modules w;
     global_config := global_config w; files := files w; tmp_count := tmp_count w;
     buckets := buckets w; objects := o; artifacts := artifacts w;
     ticks := ticks w; trace := trace w |}.

Definition set_artifacts (a : gmap string ExperimentModel) (w : World) : World :=
  {| modules := modules w;
     global_config := global_config w; files := files w; tmp_count := tmp_count w;
     buckets := buckets w; objects := objects w; artifacts := a;
     ticks := ticks w; trace := trace w |}.

Definition set_ticks (n : nat) (w : World) : World :=
  {| modules := modules w;
     global_config := global_config w; files := files w; tmp_count := tmp_count w;
     buckets := buckets w; objects := objects w; artifacts := artifacts w;
     ticks := n; trace := trace w |}.

Definition set_trace (t : list Event) (w : World) : World :=
  {| modules := modules w;
     global_config := global_config w; files := files w; tmp_count := tmp_count w;
     buckets := buckets w; objects := objects w; artifacts := artifacts w;
     ticks := ticks w; trace := t |}.

(** ** The monad: state and exceptions *)

(** A computation returns the world it leaves behind in both cases: what was
    done before an exception stays done. *)
Definition M (A : Type) : Type := World -> World * (exn + A).

Definition ret {A} (a : A) : M A := fun w => (w, inr a).

Definition raise {A} (e : exn) : M A := fun w => (w, inl e).

Definition bind {A B} (m : M A) (k : A -> M B) : M B :=
  fun w =>
    match m w with
    | (w', inr a) => k a w'
    | (w', inl e) => (w', inl e)
    end.

Notation "x <- m ;; k" := (bind m (fun x => k))
  (at level 100, m at next level, right associativity).
Notation "m ;; k" := (bind m (fun _ => k))
  (at level 100, right associativity).

(** [try: m finally: cleanup]; the clean-up of this code never raises. *)
Definition finally {A} (m : M A) (cleanup : World -> World) : M A :=
  fun w => let (w', r) := m w in (cleanup w', r).

Definition gets {A} (f : World -> A) : M A := fun w => (w, inr (f w)).

Definition modify (f : World -> World) : M unit := fun w => (f w, inr tt).

Definition emit (e : Event) : M unit :=
  modify (fun w => set_trace (trace w ++ [e]) w).

(** [try: body except E: handler]: [handler] tells which exceptions it
    catches. *)
Definition try_except {A} (body : M A) (handler : exn -> option (M A)) : M A :=
  fun w =>
    match body w with
    | (w', inl e) =>
        match handler e with
        | Some h => h w'
        | None => (w', inl e)
        end
    | (w', inr a) => (w', inr a)
    end.

(** [try: body except E: handler else: orelse]: the [else] suite runs
    outside the reach of the handler. *)
Definition try_except_else {A B} (body : M A) (handler : exn -> option (M B))
    (orelse : A -> M B) : M B :=
  fun w =>
    match body w with
    | (w', inl e) =>
        match handler e with
        | Some h => h w'
        | None => (w', inl e)
        end
    | (w', inr a) => orelse a w'
    end.

Definition except_ImportError {A} (h : M A) (e : exn) : option (M A) :=
  match e with
  | ImportError _ => Some h
  | _ => None
  end.

(** [import name]: the module's [__version__], or [ImportError]. *)
Definition import_module (name : string) : M string :=
  fun w =>
    match modules w !! name with
    | Some version => (w, inr version)
    | None => (w, inl (ImportError ("No module named " +:+ name)))
    end.

(** [d[k]] on a dictionary with string keys. *)
Definition getitem {V} (d : gmap string V) (k : string) : M V :=
  fun w =>
    match d !! k with
    | Some v => (w, inr v)
    | None => (w, inl (KeyError k))
    end.

(** [k in d]. *)
Definition contains {V} (d : gmap string V) (k : string) : bool :=
  bool_decide (is_Some (d !! k)).

(** Lifting a pure computation that may raise. *)
Definition lift {A} (r : exn + A) : M A := fun w => (w, r).

(** [for x in xs: f x], collecting the results. *)
Fixpoint mapM {A B} (f : A -> exn + B) (xs : list A) : exn + list B :=
  match xs with
  | [] => inr []
  | x :: xs' =>
      match f x with
      | inl e => inl e
      | inr y =>
          match mapM f xs' with
          | inl e => inl e
          | inr ys => inr (y :: ys)
          end
      end
  end.

(** The events a run added: the trace of [w'] past that of [w]. *)
Definition calls_since (w w' : World) : list Event :=
  drop (length (trace w)) (trace w').

(** ** Built-in operations on values *)

(** [x[:stop]]. *)
Definition getslice (x : pyval) (stop : nat) : exn + pyval :=
  match x with
  | PyList items => inr (PyList (take stop items))
  | PyTuple items => inr (PyTuple (take stop items))
  | NdArray rows => inr (NdArray (take stop rows))
  | PyStr s => inr (PyStr (String.substring 0 stop s))
  | PyBytes s => inr (PyBytes (String.substring 0 stop s))
  | _ => inl (TypeError "object is not subscriptable")
  end.

(** [x.tolist()]. *)
Definition tolist (x : pyval) : exn + pyval :=
  match x with
  | NdArray rows => inr (PyList rows)
  | _ => inl (AttributeError "tolist")
  end.

(** [x.head(n)]. *)
Definition head (x : pyval) (n : nat) : exn + pyval :=
  match x with
  | DataFrame columns => inr (DataFrame (map (fun c => (c.1, take n c.2)) columns))
  | _ => inl (AttributeError "head")
  end.

(** [x.to_dict("list")]. *)
Definition to_dict_list (x : pyval) : exn + pyval :=
  match x with
  | DataFrame columns => inr (PyDict (map (fun c => (c.1, PyList c.2)) columns))
  | _ => inl (AttributeError "to_dict")
  end.

(** [d.items()] and [d.values()]; [iter(x)] of a list. *)
Definition items (x : pyval) : list (pyval * pyval) :=
  match x with
  | PyDict kvs => kvs
  | _ => []
  end.

Definition values (x : pyval) : list pyval := map snd (items x).

Definition elements (x : pyval) : list pyval :=
  match x with
  | PyList xs => xs
  | _ => []
  end.

Definition and_then {A B} (r : exn + A) (f : A -> exn + B) : exn + B :=
  match r with
  | inl e => inl e
  | inr a => f a
  end.

(** ** Libraries outside the repository *)

(** The functions of third-party packages and of remote services whose
    results the code only passes on.  [unique_name], [assigned_artifact_id]
    and [generated_display_name] depend on the clock and on random tokens,
    given here by the world's tick. *)
Class Libs := {
  pickle_dumps : PyInstance -> Z -> string;
  pickle_loads : string -> option PyInstance;
  yaml_dump : pyval -> option bool -> bool -> string;
  unique_name : nat -> string;
  assigned_artifact_id : nat -> string;
  generated_display_name : string -> nat -> string;
  prebuilt_container_uri : string -> string -> string -> string -> exn + string;
  configure : kwargs -> initializer.GlobalConfig -> exn + initializer.GlobalConfig
}.

(** [open(path, "w")] and [open(path, "r")] with the whole content written
    or read at once.  Writing never fails: the directory of [path] is taken
    to exist, as the temporary directory of [save_model] does. *)
Definition write_file (path content : string) : M unit :=
  modify (fun w => set_files (<[path := content]> (files w)) w).

Definition read_file (path : string) : M string :=
  fun w =>
    match files w !! path with
    | Some content => (w, inr content)
    | None => (w, inl (FileNotFoundError path))
    end.

Module pickle.

Definition dump `{Libs} (obj : PyInstance) (path : string) (protocol : Z) : M unit :=
  write_file path (pickle_dumps obj protocol).

Definition load `{Libs} (path : string) : M PyInstance :=
  content <- read_file path ;;
  match pickle_loads content with
  | Some obj => ret obj
  | None => raise UnpicklingError
  end.

End pickle.

Module yaml.

Definition dump `{Libs} (data : pyval) (path : string)
    (default_flow_style : option bool) (sort_keys : bool) : M unit :=
  write_file path (yaml_dump data default_flow_style sort_keys).

End yaml.

Module tempfile.

Fixpoint suffix (n : nat) : string :=
  match n with
  | O => EmptyString
  | S n' => String "x" (suffix n')
  end.

(** The n-th temporary directory of the process. *)
Definition mkdtemp_name (n : nat) : string := "/tmp/tmp" +:+ suffix n.

(** Removes every file under [dir]. *)
Definition rmtree (dir : string) (w : World) : World :=
  set_files
    (filter (fun kv : string * string => os.path.relative_to dir kv.1 = None) (files w))
    w.

(** [with tempfile.TemporaryDirectory() as temp_dir: body]: a fresh, empty
    directory, removed when the block is left, by return or by exception. *)
Definition TemporaryDirectory {A} (body : string -> M A) : M A :=
  fun w =>
    let temp_dir := mkdtemp_name (tmp_count w) in
    finally (body temp_dir) (rmtree temp_dir)
      (set_tmp_count (S (tmp_count w)) (rmtree temp_dir w)).

End tempfile.

Module _LOGGER.

Definition info (msg : string) : M unit := emit (LogInfo msg).

Definition warning (msg : string) : M unit := emit (LogWarning msg).

End _LOGGER.

(** ** Collaborators *)

Module storage.

(** [storage.Bucket(client, name).exists()]. *)
Definition Bucket_exists (name : string) : M bool :=
  emit (BucketExists name) ;;
  gets (fun w => bool_decide (name ∈ buckets w)).

(** [client.create_bucket(bucket_or_name, project, location)]. *)
Definition create_bucket (name project location : string) : M unit :=
  emit (CreateBucket name project location) ;;
  modify (fun w => set_buckets ({[name]} ∪ buckets w) w).

End storage.

Module utils.

(** Modelled from the spec: [utils.timestamped_unique_name] is not among the
    sources; the spec calls its result a timestamp and a random-uniqueness
    token.  Here it is the library's name for the current tick, and the
    tick advances. *)
Definition timestamped_unique_name `{Libs} : M string :=
  fun w =>
    let name := unique_name (ticks w) in
    (set_trace (trace w ++ [TimestampedUniqueName name]) (set_ticks (S (ticks w)) w),
     inr name).

End utils.

Module gcs_utils.

(** The files under [dir], by their names relative to it. *)
Definition listdir (dir : string) (fs : gmap string string) : list (string * string) :=
  omap (fun kv : string * string =>
          match os.path.relative_to dir kv.1 with
          | Some name => Some (name, kv.2)
          | None => None
          end)
       (map_to_list fs).

(** Modelled from the spec: [gcs_utils.upload_to_gcs] is not among the
    sources; the spec has it upload the entire working area's contents to
    the destination location, a directory containing the canonical model file
    and its sibling descriptor file.  Each file goes to the path the callers
    compute for it, [os.path.join(destination_uri, name)]. *)
Definition upload_to_gcs (source_path destination_uri : string) : M unit :=
  emit (UploadToGcs source_path destination_uri) ;;
  modify (fun w =>
    set_objects
      (foldr (fun f o => <[os.path.join destination_uri f.1 := f.2]> o)
             (objects w) (listdir source_path (files w)))
      w).

(** Modelled from the spec: [gcs_utils.download_file_from_gcs] is not among
    the sources; the spec has it download a single file from object storage.
    A missing object is the collaborator's NotFound failure. *)
Definition download_file_from_gcs (source_file_uri destination_file_path : string) : M unit :=
  emit (DownloadFromGcs source_file_uri destination_file_path) ;;
  o <- gets (fun w => objects w !! source_file_uri) ;;
  match o with
  | Some content => write_file destination_file_path content
  | None => raise (NotFound source_file_uri)
  end.

End gcs_utils.

Module aiplatform.

(** Modelled from the spec: [get_experiment_model] is not among the sources;
    the spec lists it as the metadata service's get-artifact-by-id. *)
Definition get_experiment_model (artifact_id : string) : M ExperimentModel :=
  emit (GetExperimentModel artifact_id) ;;
  a <- gets (fun w => artifacts w !! artifact_id) ;;
  match a with
  | Some model => ret model
  | None => raise (NotFound artifact_id)
  end.

(** Modelled from the spec: [aiplatform.init] is not among the sources; the
    spec has it take arbitrary keyword configuration into the shared global
    configuration object. *)
Definition init `{Libs} (kw : kwargs) : M unit :=
  cfg <- gets global_config ;;
  match configure kw cfg with
  | inr cfg' => modify (set_global_config cfg')
  | inl e => raise e
  end.

End aiplatform.

Module ExperimentModel.

Import google_artifact_schema.

(** [google_artifact_schema.ExperimentModel(...)]. *)
Definition new (framework_name framework_version model_file model_class : string)
    (predict_schemata : option schema_utils.PredictSchemata)
    (artifact_id : option string) (uri : string) (display_name : option string)
    : ExperimentModel :=
  {| framework_name := framework_name;
     framework_version := framework_version;
     model_file := model_file;
     model_class := model_class;
     predict_schemata := predict_schemata;
     artifact_id := artifact_id;
     uri := uri;
     display_name := display_name;
     metadata_store_id := None;
     project := EmptyString;
     location := EmptyString;
     credentials := None |}.

(** Modelled from the spec: [ExperimentModel.create] is not among the
    sources; the spec has the metadata service create the artifact (by store
    id, project, location, credentials) and return the record with the
    identifier it bears: the caller's, or one the service assigns. *)
Definition create `{Libs} (self : ExperimentModel) (metadata_store_id project location : option string)
    (credentials : option Credentials) : M ExperimentModel :=
  fun w =>
    let cfg := global_config w in
    let resource_id :=
      match artifact_id self with
      | Some id => id
      | None => assigned_artifact_id (ticks w)
      end in
    let created :=
      {| framework_name := framework_name self;
         framework_version := framework_version self;
         model_file := model_file self;
         model_class := model_class self;
         predict_schemata := predict_schemata self;
         artifact_id := Some resource_id;
         uri := uri self;
         display_name := display_name self;
         metadata_store_id := metadata_store_id;
         project := or_else project (initializer.project cfg);
         location := or_else location (initializer.location cfg);
         credentials :=
           match credentials with
           | Some c => Some c
           | None => initializer.credentials cfg
           end |} in
    (set_trace (trace w ++ [CreateArtifact metadata_store_id resource_id])
       (set_artifacts (<[resource_id := created]> (artifacts w))
          (set_ticks (S (ticks w)) w)),
     inr created).

End ExperimentModel.

Module helpers.

(** Modelled from the spec: [helpers] is not among the sources; the spec has
    the prebuilt-container catalog map framework, version, region and
    accelerator to a container image URI.  The look-up fails when nothing
    matches. *)
Definition _get_closest_match_prebuilt_container_uri `{Libs}
    (framework framework_version region accelerator : string) : M string :=
  emit (PrebuiltContainerLookup framework framework_version region accelerator) ;;
  lift (prebuilt_container_uri framework framework_version region accelerator).

End helpers.

Module Model.

(** Modelled from the spec: [models.Model._generate_display_name] is not
    among the sources; the spec has the display name synthesized from the
    framework name. *)
Definition _generate_display_name `{Libs} (prefix : string) : M string :=
  fun w => (set_ticks (S (ticks w)) w, inr (generated_display_name prefix (ticks w))).

(** Modelled from the spec: [models.Model.upload] is not among the sources;
    the spec has the model registry take the request and return a model
    resource handle. *)
Definition upload (r : models.UploadRequest) : M models.Model :=
  emit (ModelUpload r) ;;
  ret {| models.request := r |}.

End Model.

(** ** google/cloud/aiplatform/metadata/_models.py *)

Module _models.

Definition _PICKLE_PROTOCOL : Z := 4.

Definition _MAX_INPUT_EXAMPLE_ROWS : nat := 5.

Definition _FRAMEWORK_SPECS : gmap string (gmap string string) :=
  {[ "sklearn" :=
       {[ "save_method" := "_save_sklearn_model";
          "load_method" := "_load_sklearn_model";
          "model_file" := "model.pkl" ]} ]}.

(** An example document [{"type": kind, "data": data}]. *)
Definition example_dict (kind : string) (data : pyval) : list (pyval * pyval) :=
  [(PyStr "type", PyStr kind); (PyStr "data", data)].

Definition _save_input_example `{Libs} (input_example : pyval) (path : string) : M unit :=
  try_except (import_module "numpy" ;; ret tt)
    (except_ImportError
       (raise (ImportError
          ("numpy is not installed and is required for saving input examples. "
           +:+ "Please install google-cloud-aiplatform[metadata]."))))
  ;;
  try_except (import_module "yaml" ;; ret tt)
    (except_ImportError
       (raise (ImportError
          "PyYAML is not installed and is required for saving input examples.")))
  ;;
  let example : list (pyval * pyval) := [] in
  example <-
    (if isinstance_list input_example then
       if forallb isinstance_list (elements input_example) then
         data <- lift (getslice input_example _MAX_INPUT_EXAMPLE_ROWS) ;;
         ret (example_dict "list" data)
       else if forallb np_isscalar (elements input_example) then
         ret (example_dict "list" input_example)
       else
         raise (ValueError "The value inside a list must be a scalar or list.")
     else ret example) ;;
  example <-
    (if isinstance_dict input_example then
       if forallb isinstance_list (values input_example) then
         data <- lift (mapM (fun kv : pyval * pyval =>
                         and_then (getslice kv.2 _MAX_INPUT_EXAMPLE_ROWS)
                           (fun v => inr (kv.1, v)))
                       (items input_example)) ;;
         ret (example_dict "dict" (PyDict data))
       else if forallb isinstance_ndarray (values input_example) then
         data <- lift (mapM (fun kv : pyval * pyval =>
                         and_then (and_then (getslice kv.2 _MAX_INPUT_EXAMPLE_ROWS) tolist)
                           (fun v => inr (kv.1, v)))
                       (items input_example)) ;;
         ret (example_dict "dict" (PyDict data))
       else if forallb np_isscalar (values input_example) then
         ret (example_dict "dict" input_example)
       else
         raise (ValueError
           "The value inside a dictionary must be a scalar, list, or np.ndarray")
     else ret example) ;;
  example <-
    (if isinstance_ndarray input_example then
       data <- lift (and_then (getslice input_example _MAX_INPUT_EXAMPLE_ROWS) tolist) ;;
       ret (example_dict "numpy.ndarray" data)
     else ret example) ;;
  example <-
    try_except
      (import_module "pandas" ;;
       if isinstance_DataFrame input_example then
         data <- lift (and_then (head input_example _MAX_INPUT_EXAMPLE_ROWS) to_dict_list) ;;
         ret (example_dict "pandas.DataFrame" data)
       else ret example)
      (except_ImportError (ret example)) ;;
  match example with
  | [] =>
      raise (ValueError
        ("Input example type not supported. "
         +:+ "Valid example must be a list, dict, np.ndarray, or pd.DataFrame."))
  | _ :: _ =>
      let example_file := os.path.join path "instance.yaml" in
      yaml.dump (PyDict [(PyStr "input_example", PyDict example)]) example_file None false
  end.

Definition _save_sklearn_model `{Libs} (model : PyInstance) (path : string) : M unit :=
  pickle.dump model path _PICKLE_PROTOCOL.

Definition _load_sklearn_model `{Libs} (model_file : string) (model_artifact : ExperimentModel)
    : M PyInstance :=
  sklearn_version <-
    try_except (import_module "sklearn")
      (except_ImportError
         (raise (ImportError "sklearn is not installed and is required for loading models."))) ;;
  (if String.ltb sklearn_version (google_artifact_schema.framework_version model_artifact) then
     _LOGGER.warning
       ("The original model was saved via sklearn "
        +:+ google_artifact_schema.framework_version model_artifact +:+ ". "
        +:+ "You are using sklearn " +:+ sklearn_version +:+ "."
        +:+ "Attempting to load model...")
   else ret tt) ;;
  pickle.load model_file.

(** The functions [globals()] is asked for. *)
Inductive function :=
| SaveMethod (f : PyInstance -> string -> M unit)
| LoadMethod (f : string -> ExperimentModel -> M PyInstance).

Definition globals `{Libs} : gmap string function :=
  {[ "_save_sklearn_model" := SaveMethod _save_sklearn_model;
     "_load_sklearn_model" := LoadMethod _load_sklearn_model ]}.

Definition call_save (f : function) (model : PyInstance) (path : string) : M unit :=
  match f with
  | SaveMethod save => save model path
  | LoadMethod _ => raise (TypeError "save_method")
  end.

Definition call_load (f : function) (path : string) (model : ExperimentModel) : M PyInstance :=
  match f with
  | LoadMethod load => load path model
  | SaveMethod _ => raise (TypeError "load_method")
  end.

(** [f"{model.__class__.__module__}.{model.__class__.__name__}"]. *)
Definition qualified_class_name (model : PyInstance) : string :=
  cls_module (py_class model) +:+ "." +:+ cls_name (py_class model).

(** [a or b] on optional credentials. *)
Definition or_credentials (a b : option Credentials) : option Credentials :=
  match a with
  | Some c => Some c
  | None => b
  end.

Definition save_model `{Libs} (model : PyInstance) (artifact_id uri : option string)
    (input_example : option pyval) (display_name metadata_store_id project location : option string)
    (credentials : option Credentials) : M ExperimentModel :=
  fw <-
    try_except_else (import_module "sklearn")
      (except_ImportError (ret (EmptyString, EmptyString)))
      (fun sklearn_version =>
         if isinstance model "sklearn.base.BaseEstimator"
         then ret ("sklearn", sklearn_version)
         else ret (EmptyString, EmptyString)) ;;
  let framework_name := fw.1 in
  let framework_version := fw.2 in
  if negb (contains _FRAMEWORK_SPECS framework_name) then
    raise (ValueError ("Model type " +:+ qualified_class_name model +:+ " not supported."))
  else
  spec <- getitem _FRAMEWORK_SPECS framework_name ;;
  save_name <- getitem spec "save_method" ;;
  save_method <- getitem globals save_name ;;
  model_file <- getitem spec "model_file" ;;
  dest <-
    (if negb (truthy uri) then
       staging_bucket <- gets (fun w => initializer.staging_bucket (global_config w)) ;;
       staged <-
         (if negb (truthy staging_bucket) then
            cfg <- gets global_config ;;
            let project := or_else project (initializer.project cfg) in
            let location := or_else location (initializer.location cfg) in
            let credentials := or_credentials credentials (initializer.credentials cfg) in
            let staging_bucket_name := project +:+ "-vertex-staging-" +:+ location in
            found <- storage.Bucket_exists staging_bucket_name ;;
            (if negb found then
               _LOGGER.info
                 ("Creating staging bucket " +:+ String "034" staging_bucket_name
                  +:+ String "034" EmptyString) ;;
               storage.create_bucket staging_bucket_name project location
             else ret tt) ;;
            ret ("gs://" +:+ staging_bucket_name, Some project, Some location, credentials)
          else ret (default EmptyString staging_bucket, project, location, credentials)) ;;
       let '(staging_bucket, project, location, credentials) := staged in
       unique_name <- utils.timestamped_unique_name ;;
       ret (staging_bucket +:+ "/" +:+ unique_name +:+ "-" +:+ framework_name +:+ "-model",
            project, location, credentials)
     else ret (default EmptyString uri, project, location, credentials)) ;;
  let '(uri, project, location, credentials) := dest in
  predict_schemata <-
    tempfile.TemporaryDirectory (fun temp_dir =>
      let temp_model_file := os.path.join temp_dir model_file in
      call_save save_method model temp_model_file ;;
      predict_schemata <-
        match input_example with
        | Some input_example =>
            _save_input_example input_example temp_dir ;;
            ret (Some {| schema_utils.instance_schema_uri := os.path.join uri "instance.yaml" |})
        | None => ret None
        end ;;
      gcs_utils.upload_to_gcs temp_dir uri ;;
      ret predict_schemata) ;;
  let model_artifact :=
    ExperimentModel.new framework_name framework_version model_file
      (qualified_class_name model) predict_schemata artifact_id uri display_name in
  ExperimentModel.create model_artifact metadata_store_id project location credentials.

Definition load_model `{Libs} (model : string + ExperimentModel) : M PyInstance :=
  model <-
    match model with
    | inl artifact_id => aiplatform.get_experiment_model artifact_id
    | inr model => ret model
    end ;;
  let framework_name := google_artifact_schema.framework_name model in
  if negb (contains _FRAMEWORK_SPECS framework_name) then
    raise (ValueError ("Model type " +:+ framework_name +:+ " not supported."))
  else
  spec <- getitem _FRAMEWORK_SPECS framework_name ;;
  load_name <- getitem spec "load_method" ;;
  load_method <- getitem globals load_name ;;
  model_file <- getitem spec "model_file" ;;
  tempfile.TemporaryDirectory (fun temp_dir =>
    let source_file_uri := os.path.join (google_artifact_schema.uri model) model_file in
    let destination_file_path := os.path.join temp_dir model_file in
    gcs_utils.download_file_from_gcs source_file_uri destination_file_path ;;
    call_load load_method destination_file_path model).

Definition register_model `{Libs} (model : string + ExperimentModel) (use_gpu : bool)
    (display_name serving_container_image_uri project location : option string)
    (credentials : option Credentials) (sync : option bool) (passthrough : kwargs)
    : M models.Model :=
  model <-
    match model with
    | inl artifact_id => aiplatform.get_experiment_model artifact_id
    | inr model => ret model
    end ;;
  let project := or_else project (google_artifact_schema.project model) in
  let location := or_else location (google_artifact_schema.location model) in
  let credentials := or_credentials credentials (google_artifact_schema.credentials model) in
  let artifact_uri := google_artifact_schema.uri model in
  let framework_name := google_artifact_schema.framework_name model in
  let framework_version := google_artifact_schema.framework_version model in
  serving_container_image_uri <-
    (if negb (truthy serving_container_image_uri) then
       let accelerator :=
         if (framework_name =? "tensorflow") && use_gpu then "gpu" else "cpu" in
       image <- helpers._get_closest_match_prebuilt_container_uri
                  framework_name framework_version location accelerator ;;
       ret (Some image)
     else ret serving_container_image_uri) ;;
  display_name <-
    (if negb (truthy display_name) then
       name <- Model._generate_display_name (framework_name +:+ " model") ;;
       ret (Some name)
     else ret display_name) ;;
  Model.upload
    {| models.serving_container_image_uri := serving_container_image_uri;
       models.artifact_uri := artifact_uri;
       models.display_name := display_name;
       models.project := project;
       models.location := location;
       models.credentials := credentials;
       models.sync := sync;
       models.passthrough := passthrough |}.

End _models.

(** ** google/cloud/aiplatform/private_preview/vertex_ai/initializer.py *)

Module vertex_ai.

(** A keyword argument of a call: left out, or passed. *)
Inductive keyword (A : Type) :=
| Omitted
| Passed (a : A).

Arguments Omitted {A}.
Arguments Passed {A} a.

Record _Config := { _remote : bool }.

(** [_Config.__init__]. *)
Definition __init__ : _Config := {| _remote := false |}.

(** [_Config.init(self, *, remote: Optional[bool] = False, **kwargs)].  The
    object is mutated before [aiplatform.init] runs, so the new object is
    returned whether or not that call raises. *)
Definition init `{Libs} (self : _Config) (remote : keyword (option bool)) (kw : kwargs)
    (w : World) : _Config * World * (exn + unit) :=
  let remote :=
    match remote with
    | Omitted => Some false
    | Passed r => r
    end in
  let self :=
    match remote with
    | Some r => {| _remote := r |}
    | None => self
    end in
  let (w', r) := aiplatform.init kw w in
  (self, w', r).

(** The [remote] property. *)
Definition remote (self : _Config) : bool := _remote self.


(** The process-wide instance. *)
Definition global_config : _Config := __init__.

End vertex_ai.

(** ** The vocabulary of the specification *)

(** The error taxonomy of the specification, as the exceptions the code
    raises for them. *)
Definition UnsupportedFramework (what : string) : exn :=
  ValueError ("Model type " +:+ what +:+ " not supported.").

Definition InvalidInputKind_list : exn :=
  ValueError "The value inside a list must be a scalar or list.".

Definition InvalidInputKind_dict : exn :=
  ValueError "The value inside a dictionary must be a scalar, list, or np.ndarray".

Definition UnsupportedInputType : exn :=
  ValueError
    "Input example type not supported. Valid example must be a list, dict, np.ndarray, or pd.DataFrame.".

(** [sub] occurs in [s]. *)
Definition occurs_in (sub s : string) : Prop :=
  exists before after, s = before +:+ sub +:+ after.

(** The model's type is one the framework adapter registry knows: sklearn
    can be imported and the model is one of its estimators. *)
Definition supported (w : World) (model : PyInstance) : bool :=
  bool_decide (is_Some (modules w !! "sklearn"))
  && isinstance model "sklearn.base.BaseEstimator".

(** The packages the input-example encoder cannot do without. *)
Definition encoder_ready (w : World) : Prop :=
  is_Some (modules w !! "numpy") /\ is_Some (modules w !! "yaml").


(** The document the encoder writes for an example of the given tag. *)
Definition document (kind : string) (data : pyval) : pyval :=
  PyDict [(PyStr "input_example", PyDict (_models.example_dict kind data))].

(** The world after the encoder has written [doc] into the directory
    [path]. *)
Definition writes `{Libs} (path : string) (doc : pyval) (w : World) : World :=
  set_files (<[os.path.join path "instance.yaml" := yaml_dump doc None false]> (files w)) w.

(** The entries of a list, or of an array along its first axis. *)
Definition entries (v : pyval) : list pyval :=
  match v with
  | PyList xs => xs
  | NdArray rows => rows
  | _ => []
  end.

(** The first five entries of a list or an array, as a plain list. *)
Definition first_rows (v : pyval) : pyval :=
  PyList (take _models._MAX_INPUT_EXAMPLE_ROWS (entries v)).




Definition is_bucket_call (e : Event) : bool :=
  match e with
  | BucketExists _ | CreateBucket _ _ _ => true
  | _ => false
  end.

Definition is_unique_name_call (e : Event) : bool :=
  match e with
  | TimestampedUniqueName _ => true
  | _ => false
  end.

Definition is_catalog_lookup (e : Event) : bool :=
  match e with
  | PrebuiltContainerLookup _ _ _ _ => true
  | _ => false
  end.

Definition is_warning (e : Event) : bool :=
  match e with
  | LogWarning _ => true
  | _ => false
  end.

(** ** The body of [save_model], in stages

    For the proofs the body of [save_model] past the framework check is cut
    in three: resolving the destination, storing the files, and recording the
    artifact.  [save_model_supported_run] shows that [save_model] is their
    composition. *)

(** Lines 131-152: the destination [uri], with the project, location and
    credentials as the block leaves them. *)
Definition destination `{Libs} (framework_name : string) (uri project location : option string)
    (credentials : option Credentials)
    : M (string * option string * option string * option Credentials) :=
  if negb (truthy uri) then
    staging_bucket <- gets (fun w => initializer.staging_bucket (global_config w)) ;;
    staged <-
      (if negb (truthy staging_bucket) then
         cfg <- gets global_config ;;
         let project := or_else project (initializer.project cfg) in
         let location := or_else location (initializer.location cfg) in
         let credentials := _models.or_credentials credentials (initializer.credentials cfg) in
         let staging_bucket_name := project +:+ "-vertex-staging-" +:+ location in
         found <- storage.Bucket_exists staging_bucket_name ;;
         (if negb found then
            _LOGGER.info
              ("Creating staging bucket " +:+ String "034" staging_bucket_name
               +:+ String "034" EmptyString) ;;
            storage.create_bucket staging_bucket_name project location
          else ret tt) ;;
         ret ("gs://" +:+ staging_bucket_name, Some project, Some location, credentials)
       else ret (default EmptyString staging_bucket, project, location, credentials)) ;;
    let '(staging_bucket, project, location, credentials) := staged in
    unique_name <- utils.timestamped_unique_name ;;
    ret (staging_bucket +:+ "/" +:+ unique_name +:+ "-" +:+ framework_name +:+ "-model",
         project, location, credentials)
  else ret (default EmptyString uri, project, location, credentials).

(** Lines 154-165: the temporary directory, the model file, the input
    example and the upload. *)
Definition store `{Libs} (save_method : _models.function) (model : PyInstance)
    (model_file uri : string) (input_example : option pyval)
    : M (option schema_utils.PredictSchemata) :=
  tempfile.TemporaryDirectory (fun temp_dir =>
    let temp_model_file := os.path.join temp_dir model_file in
    _models.call_save save_method model temp_model_file ;;
    predict_schemata <-
      match input_example with
      | Some input_example =>
          _models._save_input_example input_example temp_dir ;;
          ret (Some {| schema_utils.instance_schema_uri := os.path.join uri "instance.yaml" |})
      | None => ret None
      end ;;
    gcs_utils.upload_to_gcs temp_dir uri ;;
    ret predict_schemata).

(** Lines 154-184: storing, then creating the artifact. *)
Definition finish `{Libs} (model : PyInstance) (framework_version : string)
    (input_example : option pyval) (artifact_id display_name metadata_store_id : option string)
    (dest : string * option string * option string * option Credentials)
    : M ExperimentModel :=
  let '(uri, project, location, credentials) := dest in
  predict_schemata <-
    store (_models.SaveMethod _models._save_sklearn_model) model "model.pkl" uri input_example ;;
  ExperimentModel.create
    (ExperimentModel.new "sklearn" framework_version "model.pkl"
       (_models.qualified_class_name model) predict_schemata artifact_id uri display_name)
    metadata_store_id project location credentials.

(** The bucket the code derives from project and location. *)
Definition staging_bucket_name (w : World) (project location : option string) : string :=
  or_else project (initializer.project (global_config w))
  +:+ "-vertex-staging-" +:+ or_else location (initializer.location (global_config w)).

(** Everything but the local files is the same in both worlds. *)
Definition same_services (w w' : World) : Prop :=
  modules w' = modules w /\ global_config w' = global_config w
  /\ tmp_count w' = tmp_count w /\ buckets w' = buckets w
  /\ objects w' = objects w /\ artifacts w' = artifacts w
  /\ ticks w' = ticks w /\ trace w' = trace w.

(** Events among which there is neither a bucket call nor the making of a
    unique name. *)
Definition harmless (es : list Event) : Prop :=
  filter is_bucket_call es = [] /\ filter is_unique_name_call es = [].

(** The exceptions of the encoder. *)
Definition encoder_error (e : exn) : Prop :=
  e = ImportError
        ("numpy is not installed and is required for saving input examples. "
         +:+ "Please install google-cloud-aiplatform[metadata].")
  \/ e = ImportError "PyYAML is not installed and is required for saving input examples."
  \/ e = InvalidInputKind_list \/ e = InvalidInputKind_dict \/ e = UnsupportedInputType.

(** What resolving the destination asks of the collaborators. *)
Definition destination_calls `{Libs} (w : World) (u p l : option string) : list Event :=
  if truthy u then []
  else if truthy (initializer.staging_bucket (global_config w)) then
    [TimestampedUniqueName (unique_name (ticks w))]
  else
    BucketExists (staging_bucket_name w p l)
    :: (if bool_decide (staging_bucket_name w p l ∈ buckets w) then []
        else [LogInfo ("Creating staging bucket "
                       +:+ String "034" (staging_bucket_name w p l)
                       +:+ String "034" EmptyString);
              CreateBucket (staging_bucket_name w p l)
                (or_else p (initializer.project (global_config w)))
                (or_else l (initializer.location (global_config w)))])
    ++ [TimestampedUniqueName (unique_name (ticks w))].

(** The record [register_model] works on: the one passed, or the one the
    metadata store holds under the identifier passed. *)
Definition resolves_to (w : World) (model : string + ExperimentModel) (r : ExperimentModel) : Prop :=
  match model with
  | inl artifact_id => artifacts w !! artifact_id = Some r
  | inr m => m = r
  end.

(** The tags of the documents the encoder writes. *)
Definition example_tags : list string := ["list"; "dict"; "numpy.ndarray"; "pandas.DataFrame"].

(** The events of looking the record up. *)
Definition lookup_calls (model : string + ExperimentModel) : list Event :=
  match model with
  | inl artifact_id => [GetExperimentModel artifact_id]
  | inr _ => []
  end.

Definition is_model_upload (e : Event) : bool :=
  match e with
  | ModelUpload _ => true
  | _ => false
  end.

(** The record [save_model] creates, for a destination and a schema
    reference. *)
Definition created_record `{Libs} (w : World) (model : PyInstance) (v : string)
    (ps : option schema_utils.PredictSchemata) (a dn ms : option string)
    (uri : string) (p l : option string) (c : option Credentials) : ExperimentModel :=
  {| google_artifact_schema.framework_name := "sklearn";
     google_artifact_schema.framework_version := v;
     google_artifact_schema.model_file := "model.pkl";
     google_artifact_schema.model_class := _models.qualified_class_name model;
     google_artifact_schema.predict_schemata := ps;
     google_artifact_schema.artifact_id :=
       Some (match a with Some id => id | None => assigned_artifact_id (ticks w) end);
     google_artifact_schema.uri := uri;
     google_artifact_schema.display_name := dn;
     google_artifact_schema.metadata_store_id := ms;
     google_artifact_schema.project := or_else p (initializer.project (global_config w));
     google_artifact_schema.location := or_else l (initializer.location (global_config w));
     google_artifact_schema.credentials :=
       _models.or_credentials c (initializer.credentials (global_config w)) |}.

(** ** A concrete interpreter, for examples *)

Module Demo.

Definition LinearRegression : PyClass :=
  {| cls_module := "sklearn.linear_model._base";
     cls_name := "LinearRegression";
     cls_mro := ["sklearn.linear_model._base.LinearRegression";
                 "sklearn.base.BaseEstimator"; "builtins.object"] |}.

(** A fitted estimator. *)
Definition estimator : PyInstance :=
  {| py_class := LinearRegression;
     py_dict := [("coef_", PyList [PyInt 2; PyInt 3]); ("intercept_", PyInt 1)] |}.

(** An object that is no estimator. *)
Definition plain_dict : PyInstance :=
  {| py_class := {| cls_module := "builtins"; cls_name := "dict";
                    cls_mro := ["builtins.dict"; "builtins.object"] |};
     py_dict := [] |}.

(** A flow-style rendering of a document. *)
Fixpoint render (v : pyval) : string :=
  match v with
  | PyNone => "null"
  | PyBool b => if b then "true" else "false"
  | PyInt n => pretty n
  | PyStr s => s
  | PyList xs =>
      "[" +:+ (fix go (l : list pyval) : string :=
                 match l with
                 | [] => EmptyString
                 | [x] => render x
                 | x :: l' => render x +:+ ", " +:+ go l'
                 end) xs +:+ "]"
  | PyDict kvs =>
      "{" +:+ (fix go (l : list (pyval * pyval)) : string :=
                 match l with
                 | [] => EmptyString
                 | [(k, x)] => render k +:+ ": " +:+ render x
                 | (k, x) :: l' => render k +:+ ": " +:+ render x +:+ ", " +:+ go l'
                 end) kvs +:+ "}"
  | _ => "?"
  end.

(** A pickler that knows the classes of this module: it writes the class
    name, and finds the object again by it. *)
#[export] Instance libs : Libs :=
  {| pickle_dumps obj protocol := pretty protocol +:+ ":" +:+ _models.qualified_class_name obj;
     pickle_loads s :=
       if s =? "4:sklearn.linear_model._base.LinearRegression" then Some estimator
       else None;
     yaml_dump data default_flow_style sort_keys := render data;
     unique_name n := "2023-03-01-12-00-00-" +:+ pretty n;
     assigned_artifact_id n := "artifact-" +:+ pretty n;
     generated_display_name prefix n := prefix +:+ " " +:+ pretty n;
     prebuilt_container_uri framework framework_version region accelerator :=
       inr ("us-docker.pkg.dev/vertex-ai/prediction/" +:+ framework +:+ "-" +:+ accelerator
            +:+ "." +:+ framework_version);
     configure kw cfg := inr cfg |}.

Definition config : initializer.GlobalConfig :=
  {| initializer.project := "my-project";
     initializer.location := "us-central1";
     initializer.staging_bucket := None;
     initializer.credentials := None |}.

(** A process with sklearn 1.2.0, numpy and PyYAML, and nothing stored. *)
Definition world : World :=
  {| modules := {[ "sklearn" := "1.2.0"; "numpy" := "1.24.2"; "yaml" := "6.0" ]};
     global_config := config;
     files := ∅;
     tmp_count := 0;
     buckets := ∅;
     objects := ∅;
     artifacts := ∅;
     ticks := 0;
     trace := [] |}.

(** The same process without sklearn. *)
Definition world_without_sklearn : World :=
  {| modules := {[ "numpy" := "1.24.2"; "yaml" := "6.0" ]};
     global_config := config;
     files := ∅;
     tmp_count := 0;
     buckets := ∅;
     objects := ∅;
     artifacts := ∅;
     ticks := 0;
     trace := [] |}.

(** The same process with a default staging bucket configured. *)
Definition world_with_staging_bucket : World :=
  set_global_config
    {| initializer.project := "my-project";
       initializer.location := "us-central1";
       initializer.staging_bucket := Some "gs://my-bucket";
       initializer.credentials := None |}
    world.

(** A record saved by sklearn [version]. *)
Definition saved_by (version : string) : ExperimentModel :=
  ExperimentModel.new "sklearn" version "model.pkl"
    "sklearn.linear_model._base.LinearRegression" None (Some "my-model")
    "gs://my-bucket/my-model" None.

(** A process in which that record's model file has been downloaded. *)
Definition world_with_model_file : World :=
  set_files {[ "/tmp/model.pkl" := "4:sklearn.linear_model._base.LinearRegression" ]} world.


Definition seven_numbers : list pyval := map PyInt [1; 2; 3; 4; 5; 6; 7]%Z.


End Demo.

(** ** More processes and records, for examples *)

Module Cases.

(** An interpreter like [Demo.libs], but whose catalog holds no container
    and whose configuration accepts no keyword. *)
Definition libs : Libs :=
  {| pickle_dumps := @pickle_dumps Demo.libs;
     pickle_loads := @pickle_loads Demo.libs;
     yaml_dump := @yaml_dump Demo.libs;
     unique_name := @unique_name Demo.libs;
     assigned_artifact_id := @assigned_artifact_id Demo.libs;
     generated_display_name := @generated_display_name Demo.libs;
     prebuilt_container_uri framework framework_version region accelerator :=
       inl (ValueError ("No prebuilt container for " +:+ framework));
     configure kw cfg :=
       match kw with
       | [] => inr cfg
       | (name, _) :: _ =>
           inl (TypeError ("init() got an unexpected keyword argument " +:+ name))
       end |}.

(** The demo process with pandas installed as well. *)
Definition world_with_pandas : World :=
  {| modules := {[ "sklearn" := "1.2.0"; "numpy" := "1.24.2"; "yaml" := "6.0";
                   "pandas" := "1.5.3" ]};
     global_config := Demo.config;
     files := ∅;
     tmp_count := 0;
     buckets := ∅;
     objects := ∅;
     artifacts := ∅;
     ticks := 0;
     trace := [] |}.

(** A record of a framework the registry does not know. *)
Definition tensorflow_record : ExperimentModel :=
  ExperimentModel.new "tensorflow" "2.11" "saved_model.pb" "keras.Model" None
    (Some "tf-model") "gs://my-bucket/tf-model" None.

End Cases.

(** ** Tactics *)

(** Runs the monad: unfolds its operations and the updates of the world,
    then reads the fields of the records this leaves. *)
Ltac run :=
  unfold try_except, try_except_else, except_ImportError, getitem, import_module,
    write_file, read_file, emit, gets, modify, lift, finally, bind, ret, raise;
  cbn [modules global_config files tmp_count buckets objects artifacts ticks trace
       set_global_config set_files set_tmp_count set_buckets set_objects set_artifacts
       set_ticks set_trace fst snd negb].

(** * Properties *)

(** ** Traces *)

Lemma calls_since_refl w : calls_since w w = [].
Proof. unfold calls_since. apply drop_all. Qed.

Lemma calls_since_app w w' (es : list Event) :
  trace w' = (trace w ++ es)%list -> calls_since w w' = es.
Proof. unfold calls_since. intros ->. apply drop_app_length. Qed.






(** ** The input-example encoder *)

Section Encoder.

Context `{Libs}.

(** With numpy and PyYAML installed the two guarded imports fall through. *)
Lemma encoder_imports w (k : M unit) :
  encoder_ready w ->
  bind (try_except (import_module "numpy" ;; ret tt)
    (except_ImportError
       (raise (ImportError
          ("numpy is not installed and is required for saving input examples. "
           +:+ "Please install google-cloud-aiplatform[metadata]."))))) (fun _ =>
  bind (try_except (import_module "yaml" ;; ret tt)
    (except_ImportError
       (raise (ImportError
          "PyYAML is not installed and is required for saving input examples."))))
    (fun _ => k)) w = k w.
Proof.
  intros [[v1 H1] [v2 H2]].
  unfold bind, try_except, import_module, ret. rewrite H1, H2. reflexivity.
Qed.

Lemma encoder_list_run w xs path :
  encoder_ready w ->
  _models._save_input_example (PyList xs) path w
  = if forallb isinstance_list xs then
      (writes path (document "list" (PyList (take _models._MAX_INPUT_EXAMPLE_ROWS xs))) w,
       inr tt)
    else if forallb np_isscalar xs then
      (writes path (document "list" (PyList xs)) w, inr tt)
    else (w, inl InvalidInputKind_list).
Proof.
  intros Hr. unfold _models._save_input_example. rewrite encoder_imports by done.
  cbn [isinstance_list elements isinstance_dict isinstance_ndarray isinstance_DataFrame].
  unfold bind, try_except, import_module, ret, raise, lift; cbn.
  destruct (forallb isinstance_list xs); [|destruct (forallb np_isscalar xs)];
    destruct (modules w !! "pandas"); reflexivity.
Qed.

(** The comprehension over a dictionary of lists never raises: every value
    can be sliced. *)
Lemma mapM_slice_lists (kvs : list (pyval * pyval)) :
  forallb isinstance_list (map snd kvs) = true ->
  mapM (fun kv : pyval * pyval =>
          and_then (getslice kv.2 _models._MAX_INPUT_EXAMPLE_ROWS)
            (fun v => inr (kv.1, v))) kvs
  = inr (map (fun kv => (kv.1, first_rows kv.2)) kvs).
Proof.
  induction kvs as [|[k v] kvs IH]; [reflexivity|].
  cbn [map snd forallb]. intros [Hv Hkvs]%andb_prop.
  cbn [mapM]. rewrite (IH Hkvs).
  destruct v; try discriminate Hv. reflexivity.
Qed.

Lemma mapM_slice_arrays (kvs : list (pyval * pyval)) :
  forallb isinstance_ndarray (map snd kvs) = true ->
  mapM (fun kv : pyval * pyval =>
          and_then (and_then (getslice kv.2 _models._MAX_INPUT_EXAMPLE_ROWS) tolist)
            (fun v => inr (kv.1, v))) kvs
  = inr (map (fun kv => (kv.1, first_rows kv.2)) kvs).
Proof.
  induction kvs as [|[k v] kvs IH]; [reflexivity|].
  cbn [map snd forallb]. intros [Hv Hkvs]%andb_prop.
  cbn [mapM]. rewrite (IH Hkvs).
  destruct v; try discriminate Hv. reflexivity.
Qed.

Lemma encoder_dict_run w kvs path :
  encoder_ready w ->
  _models._save_input_example (PyDict kvs) path w
  = if forallb isinstance_list (map snd kvs) then
      (writes path (document "dict" (PyDict (map (fun kv => (kv.1, first_rows kv.2)) kvs))) w,
       inr tt)
    else if forallb isinstance_ndarray (map snd kvs) then
      (writes path (document "dict" (PyDict (map (fun kv => (kv.1, first_rows kv.2)) kvs))) w,
       inr tt)
    else if forallb np_isscalar (map snd kvs) then
      (writes path (document "dict" (PyDict kvs)) w, inr tt)
    else (w, inl InvalidInputKind_dict).
Proof.
  intros Hr. unfold _models._save_input_example. rewrite encoder_imports by done.
  cbn [isinstance_list elements isinstance_dict isinstance_ndarray isinstance_DataFrame].
  change (values (PyDict kvs)) with (map snd kvs).
  change (items (PyDict kvs)) with kvs.
  destruct (forallb isinstance_list (map snd kvs)) eqn:Hl;
    [|destruct (forallb isinstance_ndarray (map snd kvs)) eqn:Ha;
      [|destruct (forallb np_isscalar (map snd kvs)) eqn:Hs]].
  - unfold bind, lift at 1. cbn [ret]. rewrite (mapM_slice_lists kvs Hl).
    unfold try_except, import_module, bind, ret.
    destruct (modules w !! "pandas"); reflexivity.
  - unfold bind, lift at 1. cbn [ret]. rewrite (mapM_slice_arrays kvs Ha).
    unfold try_except, import_module, bind, ret.
    destruct (modules w !! "pandas"); reflexivity.
  - unfold bind, try_except, import_module, ret.
    destruct (modules w !! "pandas"); reflexivity.
  - reflexivity.
Qed.

Lemma encoder_ndarray_run w rows path :
  encoder_ready w ->
  _models._save_input_example (NdArray rows) path w
  = (writes path (document "numpy.ndarray" (first_rows (NdArray rows))) w, inr tt).
Proof.
  intros Hr. unfold _models._save_input_example. rewrite encoder_imports by done.
  unfold bind, try_except, import_module, ret, lift; cbn.
  destruct (modules w !! "pandas"); reflexivity.
Qed.

Lemma encoder_DataFrame_run w columns path :
  encoder_ready w ->
  is_Some (modules w !! "pandas") ->
  _models._save_input_example (DataFrame columns) path w
  = (writes path
       (document "pandas.DataFrame"
          (PyDict (map (fun c => (c.1, PyList (take _models._MAX_INPUT_EXAMPLE_ROWS c.2)))
                       columns))) w,
     inr tt).
Proof.
  intros Hr [v Hp]. unfold _models._save_input_example. rewrite encoder_imports by done.
  unfold bind, try_except, import_module, ret, lift; cbn. rewrite Hp. cbn.
  rewrite map_map. reflexivity.
Qed.

Lemma encoder_other_run w x path :
  encoder_ready w ->
  isinstance_list x = false -> isinstance_dict x = false ->
  isinstance_ndarray x = false -> isinstance_DataFrame x = false ->
  _models._save_input_example x path w = (w, inl UnsupportedInputType).
Proof.
  intros Hr Hl Hd Ha Hf. unfold _models._save_input_example.
  rewrite encoder_imports by done. rewrite Hl, Hd, Ha, Hf.
  unfold bind, try_except, import_module, ret, raise.
  destruct (modules w !! "pandas"); reflexivity.
Qed.




End Encoder.

(** ** Saving, loading and registering *)

Section SaveLoad.

Context `{Libs}.

Lemma specs_sklearn :
  _models._FRAMEWORK_SPECS !! "sklearn"
  = Some {[ "save_method" := "_save_sklearn_model";
            "load_method" := "_load_sklearn_model";
            "model_file" := "model.pkl" ]}.
Proof. reflexivity. Qed.

Lemma globals_save :
  _models.globals !! "_save_sklearn_model" = Some (_models.SaveMethod _models._save_sklearn_model).
Proof. reflexivity. Qed.

Lemma save_model_supported_run w model v a u ie dn ms p l c :
  modules w !! "sklearn" = Some v ->
  isinstance model "sklearn.base.BaseEstimator" = true ->
  _models.save_model model a u ie dn ms p l c w
  = (dest <- destination "sklearn" u p l c ;; finish model v ie a dn ms dest) w.
Proof.
  intros Hm Hi. unfold _models.save_model.
  unfold bind at 1. unfold try_except_else, import_module. rewrite Hm, Hi.
  cbn [ret fst snd].
  change (contains _models._FRAMEWORK_SPECS "sklearn") with true. cbn [negb].
  unfold bind at 1. unfold getitem at 1. rewrite specs_sklearn.
  unfold bind at 1. unfold getitem at 1.
  change (({[ "save_method" := "_save_sklearn_model";
            "load_method" := "_load_sklearn_model";
            "model_file" := "model.pkl" ]} : gmap string string) !! "save_method")
    with (Some "_save_sklearn_model").
  unfold bind at 1. unfold getitem at 1. rewrite globals_save.
  unfold bind at 1. unfold getitem at 1.
  change (({[ "save_method" := "_save_sklearn_model";
            "load_method" := "_load_sklearn_model";
            "model_file" := "model.pkl" ]} : gmap string string) !! "model_file")
    with (Some "model.pkl").
  reflexivity.
Qed.


Lemma destination_given w fw u p l c :
  truthy u = true ->
  destination fw u p l c w = (w, inr (default EmptyString u, p, l, c)).
Proof. intros Hu. unfold destination. rewrite Hu. reflexivity. Qed.

Lemma destination_staged w fw u p l c :
  truthy u = false ->
  truthy (initializer.staging_bucket (global_config w)) = true ->
  destination fw u p l c w
  = (set_trace (trace w ++ [TimestampedUniqueName (unique_name (ticks w))])
       (set_ticks (S (ticks w)) w),
     inr (default EmptyString (initializer.staging_bucket (global_config w))
            +:+ "/" +:+ unique_name (ticks w) +:+ "-" +:+ fw +:+ "-model",
          p, l, c)).
Proof.
  intros Hu Hs. unfold destination. rewrite Hu. run. rewrite Hs. run.
  unfold utils.timestamped_unique_name. run. reflexivity.
Qed.

Lemma destination_found w fw u p l c :
  truthy u = false ->
  truthy (initializer.staging_bucket (global_config w)) = false ->
  staging_bucket_name w p l ∈ buckets w ->
  destination fw u p l c w
  = (set_trace (trace w ++ [BucketExists (staging_bucket_name w p l);
                            TimestampedUniqueName (unique_name (ticks w))])
       (set_ticks (S (ticks w)) w),
     inr ("gs://" +:+ staging_bucket_name w p l
            +:+ "/" +:+ unique_name (ticks w) +:+ "-" +:+ fw +:+ "-model",
          Some (or_else p (initializer.project (global_config w))),
          Some (or_else l (initializer.location (global_config w))),
          _models.or_credentials c (initializer.credentials (global_config w)))).
Proof.
  intros Hu Hs Hb. unfold destination. rewrite Hu. run. rewrite Hs. run.
  unfold storage.Bucket_exists. run.
  fold (staging_bucket_name w p l). rewrite (bool_decide_eq_true_2 _ Hb). run.
  unfold utils.timestamped_unique_name. run.
  rewrite <- app_assoc. reflexivity.
Qed.

Lemma destination_created w fw u p l c :
  truthy u = false ->
  truthy (initializer.staging_bucket (global_config w)) = false ->
  staging_bucket_name w p l ∉ buckets w ->
  destination fw u p l c w
  = (set_trace (trace w
         ++ [BucketExists (staging_bucket_name w p l);
             LogInfo ("Creating staging bucket "
                      +:+ String "034" (staging_bucket_name w p l)
                      +:+ String "034" EmptyString);
             CreateBucket (staging_bucket_name w p l)
               (or_else p (initializer.project (global_config w)))
               (or_else l (initializer.location (global_config w)));
             TimestampedUniqueName (unique_name (ticks w))])
       (set_buckets ({[staging_bucket_name w p l]} ∪ buckets w)
          (set_ticks (S (ticks w)) w)),
     inr ("gs://" +:+ staging_bucket_name w p l
            +:+ "/" +:+ unique_name (ticks w) +:+ "-" +:+ fw +:+ "-model",
          Some (or_else p (initializer.project (global_config w))),
          Some (or_else l (initializer.location (global_config w))),
          _models.or_credentials c (initializer.credentials (global_config w)))).
Proof.
  intros Hu Hs Hb. unfold destination. rewrite Hu. run. rewrite Hs. run.
  unfold storage.Bucket_exists. run.
  fold (staging_bucket_name w p l). rewrite (bool_decide_eq_false_2 _ Hb). run.
  unfold _LOGGER.info, storage.create_bucket. run.
  unfold utils.timestamped_unique_name. run.
  rewrite <- !app_assoc. reflexivity.
Qed.


Lemma encoder_frame x path w :
  same_services w (_models._save_input_example x path w).1.
Proof.
  unfold same_services, _models._save_input_example, yaml.dump. run.
  destruct (modules w !! "numpy"); run; [|repeat split].
  destruct (modules w !! "yaml"); run; [|repeat split].
  destruct x as [ |b|n|f|re im|str|str|dt dv|xs|xs|kvs|rows|columns|cls];
    unfold values, items, elements;
    cbn [isinstance_list isinstance_dict isinstance_ndarray isinstance_DataFrame
         getslice tolist head to_dict_list and_then];
    repeat match goal with
           | |- context [forallb ?f ?l] => destruct (forallb f l); run
           | |- context [mapM ?f ?l] => destruct (mapM f l); run
           | |- context [modules w !! "pandas"] => destruct (modules w !! "pandas"); run
           end;
    repeat split.
Qed.


Lemma endswith_suffix n : endswith (tempfile.suffix n) "/" = false.
Proof. induction n as [|n IH]; [reflexivity|]. cbn. exact IH. Qed.

Lemma mkdtemp_join n name :
  String.prefix "/" name = false ->
  os.path.join (tempfile.mkdtemp_name n) name = tempfile.mkdtemp_name n +:+ "/" +:+ name.
Proof.
  intros Hn. unfold os.path.join. rewrite Hn.
  unfold tempfile.mkdtemp_name.
  change (("/tmp/tmp" +:+ tempfile.suffix n =? EmptyString)
          || endswith ("/tmp/tmp" +:+ tempfile.suffix n) "/")
    with (endswith (tempfile.suffix n) "/").
  rewrite endswith_suffix. reflexivity.
Qed.

Lemma removeprefix_app d s : removeprefix d (d +:+ s) = Some s.
Proof.
  induction d as [|a d IH]; [reflexivity|].
  change (removeprefix (String a d) (String a (d +:+ s)) = Some s).
  cbn [removeprefix]. rewrite Ascii.eqb_refl. exact IH.
Qed.

Lemma relative_to_under d name : os.path.relative_to d (d +:+ "/" +:+ name) = Some name.
Proof.
  unfold os.path.relative_to.
  replace (d +:+ "/" +:+ name) with ((d +:+ "/") +:+ name).
  - apply removeprefix_app.
  - induction d as [|a d IH]; [reflexivity|].
    change (String a ((d +:+ "/") +:+ name) = String a (d +:+ "/" +:+ name)).
    rewrite IH. reflexivity.
Qed.

Lemma omap_none {A B} (f : A -> option B) (l : list A) :
  (forall x, x ∈ l -> f x = None) -> omap f l = [].
Proof.
  induction l as [|x l IH]; [reflexivity|]. intros Hf.
  cbn [omap list_omap]. rewrite (Hf x) by apply list_elem_of_here.
  apply IH. intros y Hy. apply Hf. apply list_elem_of_further. exact Hy.
Qed.

Lemma listdir_fresh d name c (fs : gmap string string) :
  gcs_utils.listdir d
    (<[d +:+ "/" +:+ name := c]>
       (filter (fun kv : string * string => os.path.relative_to d kv.1 = None) fs))
  = [(name, c)].
Proof.
  unfold gcs_utils.listdir.
  apply Permutation_singleton_r.
  rewrite map_to_list_insert.
  - cbn [omap list_omap fst snd]. rewrite relative_to_under.
    rewrite omap_none; [reflexivity|].
    intros [p c'] [_ Hp]%elem_of_map_to_list%map_lookup_filter_Some.
    cbn in *. rewrite Hp. reflexivity.
  - apply map_lookup_filter_None. right. intros c' _. cbn.
    rewrite relative_to_under. discriminate.
Qed.


Lemma store_none w model uri :
  let r := store (_models.SaveMethod _models._save_sklearn_model) model "model.pkl" uri None w in
  r.2 = inr None
  /\ objects r.1
     = <[os.path.join uri "model.pkl" := pickle_dumps model _models._PICKLE_PROTOCOL]> (objects w)
  /\ modules r.1 = modules w /\ artifacts r.1 = artifacts w
  /\ global_config r.1 = global_config w /\ ticks r.1 = ticks w.
Proof.
  unfold store, tempfile.TemporaryDirectory, tempfile.rmtree, _models.call_save,
    _models._save_sklearn_model, pickle.dump, gcs_utils.upload_to_gcs.
  run. rewrite mkdtemp_join by reflexivity. rewrite listdir_fresh.
  cbn [foldr fst snd]. repeat split.
Qed.

Lemma store_frame w model mf uri ie :
  let r := store (_models.SaveMethod _models._save_sklearn_model) model mf uri ie w in
  buckets r.1 = buckets w /\ ticks r.1 = ticks w /\ artifacts r.1 = artifacts w
  /\ global_config r.1 = global_config w
  /\ (exists es, trace r.1 = (trace w ++ es)%list /\ harmless es)
  /\ (forall e, r.2 = inl e ->
        exists x path w0, (_models._save_input_example x path w0).2 = inl e).
Proof.
  unfold store, tempfile.TemporaryDirectory, tempfile.rmtree, _models.call_save,
    _models._save_sklearn_model, pickle.dump.
  run.
  destruct ie as [x|]; run.
  - match goal with
    | |- context [_models._save_input_example x ?pth ?w2] =>
        pose proof (encoder_frame x pth w2) as (Hm & Hg & Ht & Hb & Ho & Ha & Hk & Hr);
        destruct (_models._save_input_example x pth w2) as [w3 r3] eqn:Ee
    end.
    cbn in Hm, Hg, Ht, Hb, Ho, Ha, Hk, Hr.
    destruct r3 as [e|[]]; run.
    + rewrite Hb, Hk, Ha, Hg, Hr. repeat split.
      * exists []. rewrite app_nil_r. repeat split.
      * intros e' [= <-]. eexists _, _, _. rewrite Ee. reflexivity.
    + unfold gcs_utils.upload_to_gcs. run.
      rewrite Hb, Hk, Ha, Hg, Hr. repeat split.
      * eexists. split; [reflexivity|]. split; reflexivity.
      * intros e' [=].
  - unfold gcs_utils.upload_to_gcs. run. repeat split.
    + eexists. split; [reflexivity|]. split; reflexivity.
    + intros e' [=].
Qed.


Lemma globals_load :
  _models.globals !! "_load_sklearn_model" = Some (_models.LoadMethod _models._load_sklearn_model).
Proof. reflexivity. Qed.

Lemma load_model_run w id art v content m :
  artifacts w !! id = Some art ->
  google_artifact_schema.framework_name art = "sklearn" ->
  objects w !! os.path.join (google_artifact_schema.uri art) "model.pkl" = Some content ->
  modules w !! "sklearn" = Some v ->
  pickle_loads content = Some m ->
  (_models.load_model (inl id) w).2 = inr m.
Proof.
  intros Ha Hf Ho Hm Hp. unfold _models.load_model, aiplatform.get_experiment_model.
  run. rewrite Ha. run. rewrite Hf.
  change (contains _models._FRAMEWORK_SPECS "sklearn") with true. run.
  rewrite specs_sklearn.
  change (({[ "save_method" := "_save_sklearn_model";
            "load_method" := "_load_sklearn_model";
            "model_file" := "model.pkl" ]} : gmap string string) !! "load_method") with (Some "_load_sklearn_model").
  run. rewrite globals_load.
  change (({[ "save_method" := "_save_sklearn_model";
            "load_method" := "_load_sklearn_model";
            "model_file" := "model.pkl" ]} : gmap string string) !! "model_file") with (Some "model.pkl").
  run.
  unfold tempfile.TemporaryDirectory, gcs_utils.download_file_from_gcs, tempfile.rmtree,
    _models.call_load, _models._load_sklearn_model, _LOGGER.warning, pickle.load.
  run. rewrite Ho. run. rewrite Hm. run.
  destruct (String.ltb v _); run; rewrite lookup_insert_eq, Hp; reflexivity.
Qed.

Lemma finish_frame w model v ie a dn ms dest :
  let r := finish model v ie a dn ms dest w in
  buckets r.1 = buckets w
  /\ (exists es, trace r.1 = (trace w ++ es)%list /\ harmless es)
  /\ (forall e, r.2 = inl e ->
        exists x path w0, (_models._save_input_example x path w0).2 = inl e).
Proof.
  destruct dest as [[[uri p] l] c]. unfold finish.
  pose proof (store_frame w model "model.pkl" uri ie) as (Hb & Hk & Ha & Hg & (es & Hr & He1 & He2) & He).
  unfold bind.
  destruct (store _ model "model.pkl" uri ie w) as [w2 r2]. cbn [fst snd] in *.
  destruct r2 as [e|ps]; cbn [fst snd].
  - split; [exact Hb|]. split; [|intros e' [= <-]; apply He; reflexivity].
    exists es. split; [exact Hr|split; assumption].
  - unfold ExperimentModel.create. run. split; [exact Hb|]. split; [|intros e [=]].
    exists (es ++ [CreateArtifact ms
                     (match a with Some id => id | None => assigned_artifact_id (ticks w2) end)])%list.
    rewrite Hr, <- app_assoc. split; [reflexivity|].
    unfold harmless. rewrite !filter_app, He1, He2. split; reflexivity.
Qed.

Lemma finish_none w model v a dn ms uri p l c :
  exists w' art id,
    finish model v None a dn ms (uri, p, l, c) w = (w', inr art)
    /\ google_artifact_schema.artifact_id art = Some id
    /\ artifacts w' !! id = Some art
    /\ google_artifact_schema.framework_name art = "sklearn"
    /\ google_artifact_schema.model_class art = _models.qualified_class_name model
    /\ google_artifact_schema.uri art = uri
    /\ objects w' !! os.path.join uri "model.pkl"
       = Some (pickle_dumps model _models._PICKLE_PROTOCOL)
    /\ modules w' = modules w.
Proof.
  unfold finish.
  pose proof (store_none w model uri) as (Hr & Ho & Hm & Ha & Hg & Hk).
  unfold bind.
  destruct (store _ model "model.pkl" uri None w) as [w2 r2]. cbn [fst snd] in *.
  subst r2. unfold ExperimentModel.create, ExperimentModel.new. run.
  eexists _, _, _. split; [reflexivity|].
  cbn. rewrite lookup_insert_eq, Ho, lookup_insert_eq. repeat split. exact Hm.
Qed.

Lemma destination_total w fw u p l c :
  exists w1 dest,
    destination fw u p l c w = (w1, inr dest) /\ modules w1 = modules w.
Proof.
  destruct (truthy u) eqn:Hu.
  { eexists _, _. rewrite destination_given by exact Hu. split; reflexivity. }
  destruct (truthy (initializer.staging_bucket (global_config w))) eqn:Hs.
  { eexists _, _. rewrite destination_staged by assumption. split; reflexivity. }
  destruct (decide (staging_bucket_name w p l ∈ buckets w)) as [Hb|Hb].
  - eexists _, _. rewrite destination_found by assumption. split; reflexivity.
  - eexists _, _. rewrite destination_created by assumption. split; reflexivity.
Qed.

Lemma supported_inv w model :
  supported w model = true ->
  exists v, modules w !! "sklearn" = Some v
            /\ isinstance model "sklearn.base.BaseEstimator" = true.
Proof.
  unfold supported. intros [Hm Hi]%andb_prop.
  apply bool_decide_eq_true_1 in Hm as [v Hv]. exists v. split; assumption.
Qed.

(** C1: for a model the registry supports, with a pickler that gives the
    model back, [save_model] without an input example returns a record with
    an identifier and with the model's class name, and [load_model] on that
    identifier, in the world [save_model] left, returns the model itself.
    The storage and the metadata store are the faithful ones of [World]. *)
Theorem save_load_roundtrip w model a u dn ms p l c :
  supported w model = true ->
  pickle_loads (pickle_dumps model _models._PICKLE_PROTOCOL) = Some model ->
  exists w' art id,
    _models.save_model model a u None dn ms p l c w = (w', inr art)
    /\ google_artifact_schema.artifact_id art = Some id
    /\ google_artifact_schema.model_class art = _models.qualified_class_name model
    /\ (_models.load_model (inl id) w').2 = inr model.
Proof.
  intros (v & Hm & Hi)%supported_inv Hp.
  rewrite (save_model_supported_run w model v a u None dn ms p l c Hm Hi).
  destruct (destination_total w "sklearn" u p l c) as (w1 & [[[uri p'] l'] c'] & Hd & Hm1).
  unfold bind at 1. rewrite Hd.
  destruct (finish_none w1 model v a dn ms uri p' l' c')
    as (w' & art & id & Hf & Hid & Ha & Hfw & Hc & Hu & Ho & Hm').
  exists w', art, id. split; [exact Hf|]. split; [exact Hid|]. split; [exact Hc|].
  apply (load_model_run w' id art v (pickle_dumps model _models._PICKLE_PROTOCOL) model);
    try assumption.
  - rewrite Hu. exact Ho.
  - rewrite Hm', Hm1. exact Hm.
Qed.


Lemma save_model_unsupported w model a u ie dn ms p l c :
  supported w model = false ->
  _models.save_model model a u ie dn ms p l c w
  = (w, inl (UnsupportedFramework (_models.qualified_class_name model))).
Proof.
  unfold supported, _models.save_model. intros Hs.
  unfold bind at 1. unfold try_except_else, import_module.
  destruct (modules w !! "sklearn") as [v|] eqn:Hm; cbn in Hs |- *.
  - rewrite Hs. reflexivity.
  - reflexivity.
Qed.

Lemma encoder_raises x path w e :
  (_models._save_input_example x path w).2 = inl e -> encoder_error e.
Proof.
  unfold encoder_error.
  destruct (modules w !! "numpy") as [vn|] eqn:Hn.
  2:{ unfold _models._save_input_example. run. rewrite Hn. run. intros [= <-]. auto. }
  destruct (modules w !! "yaml") as [vy|] eqn:Hy.
  2:{ unfold _models._save_input_example. run. rewrite Hn. run. rewrite Hy. run.
      intros [= <-]. auto. }
  assert (Hr : encoder_ready w) by (split; eauto).
  destruct x as [ |b|n|f|re im|str|str|dt dv|xs|xs|kvs|rows|columns|cls];
    try (rewrite encoder_other_run by (reflexivity || exact Hr); intros [= <-]; auto 10).
  - rewrite (encoder_list_run w xs path Hr).
    destruct (forallb isinstance_list xs); [discriminate|].
    destruct (forallb np_isscalar xs); [discriminate|]. intros [= <-]. auto 10.
  - rewrite (encoder_dict_run w kvs path Hr).
    destruct (forallb isinstance_list (map snd kvs)); [discriminate|].
    destruct (forallb isinstance_ndarray (map snd kvs)); [discriminate|].
    destruct (forallb np_isscalar (map snd kvs)); [discriminate|]. intros [= <-]. auto 10.
  - rewrite (encoder_ndarray_run w rows path Hr). discriminate.
  - destruct (modules w !! "pandas") as [vp|] eqn:Hp.
    + rewrite (encoder_DataFrame_run w columns path Hr) by eauto. discriminate.
    + unfold _models._save_input_example. rewrite encoder_imports by done.
      cbn [isinstance_list isinstance_dict isinstance_ndarray isinstance_DataFrame].
      run. rewrite Hp. run. intros [= <-]. auto 10.
Qed.

Lemma encoder_error_framework e q : encoder_error e -> e <> UnsupportedFramework q.
Proof.
  unfold encoder_error, UnsupportedFramework.
  intros [ -> | [ -> | [ -> | [ -> | -> ] ] ] ]; discriminate.
Qed.

(** C4: [save_model] raises UnsupportedFramework exactly when the model's
    type is not supported; it then leaves the world as it found it (no upload,
    no artifact), and the message of the error contains the model's module
    and class name, joined by a dot. *)
Theorem save_model_unsupported_framework w model a u ie dn ms p l c :
  let r := _models.save_model model a u ie dn ms p l c w in
  (r.2 = inl (UnsupportedFramework (_models.qualified_class_name model))
   <-> supported w model = false)
  /\ (supported w model = false -> r.1 = w)
  /\ (exists msg, UnsupportedFramework (_models.qualified_class_name model) = ValueError msg
        /\ occurs_in (cls_module (py_class model) +:+ "." +:+ cls_name (py_class model)) msg).
Proof.
  intros r. subst r. split; [|split].
  - split.
    + destruct (supported w model) eqn:Hs; [|reflexivity]. intros Hr. exfalso.
      destruct (supported_inv w model Hs) as (v & Hm & Hi).
      rewrite (save_model_supported_run w model v a u ie dn ms p l c Hm Hi) in Hr.
      destruct (destination_total w "sklearn" u p l c) as (w1 & dest & Hd & _).
      unfold bind at 1 in Hr. rewrite Hd in Hr.
      destruct (finish_frame w1 model v ie a dn ms dest) as (_ & _ & He).
      destruct (He _ Hr) as (x & path & w0 & Hx).
      exact (encoder_error_framework _ _ (encoder_raises _ _ _ _ Hx) eq_refl).
    + intros Hs. rewrite save_model_unsupported by exact Hs. reflexivity.
  - intros Hs. rewrite save_model_unsupported by exact Hs. reflexivity.
  - eexists. split; [reflexivity|]. exists "Model type ", " not supported.". reflexivity.
Qed.


Lemma destination_trace w fw u p l c :
  exists w1 dest,
    destination fw u p l c w = (w1, inr dest)
    /\ trace w1 = (trace w ++ destination_calls w u p l)%list
    /\ (truthy u = true -> buckets w1 = buckets w).
Proof.
  unfold destination_calls.
  destruct (truthy u) eqn:Hu.
  { eexists _, _. rewrite destination_given by exact Hu.
    rewrite app_nil_r. repeat split. }
  destruct (truthy (initializer.staging_bucket (global_config w))) eqn:Hs.
  { eexists _, _. rewrite destination_staged by assumption.
    split; [reflexivity|]. split; [reflexivity|discriminate]. }
  destruct (decide (staging_bucket_name w p l ∈ buckets w)) as [Hb|Hb].
  - eexists _, _. rewrite destination_found by assumption.
    rewrite (bool_decide_eq_true_2 _ Hb).
    split; [reflexivity|]. split; [reflexivity|discriminate].
  - eexists _, _. rewrite destination_created by assumption.
    rewrite (bool_decide_eq_false_2 _ Hb).
    split; [reflexivity|]. split; [reflexivity|discriminate].
Qed.

Lemma save_model_calls w model a u ie dn ms p l c :
  supported w model = true ->
  let r := _models.save_model model a u ie dn ms p l c w in
  (exists es, calls_since w r.1 = (destination_calls w u p l ++ es)%list /\ harmless es)
  /\ (truthy u = true -> buckets r.1 = buckets w).
Proof.
  intros (v & Hm & Hi)%supported_inv r. subst r.
  rewrite (save_model_supported_run w model v a u ie dn ms p l c Hm Hi).
  destruct (destination_trace w "sklearn" u p l c) as (w1 & dest & Hd & Ht & Hb).
  replace ((dest <- destination "sklearn" u p l c ;; finish model v ie a dn ms dest) w)
    with (finish model v ie a dn ms dest w1)
    by (unfold bind; rewrite Hd; reflexivity).
  destruct (finish_frame w1 model v ie a dn ms dest) as (Hb' & (es & Ht' & He) & _).
  split.
  - exists es. split; [|exact He]. apply calls_since_app.
    rewrite Ht', Ht, app_assoc. reflexivity.
  - intros Hu. rewrite Hb'. apply Hb, Hu.
Qed.

(** C5, as amended: with a non-empty [uri], [save_model] makes no bucket
    call and composes no unique name, and the buckets stay as they were; a
    bucket call is made only when no [uri] is given and no default staging
    bucket is configured, and then the bucket of the name derived from
    project and location is looked up first and created only when absent; the
    timestamped unique name is composed whenever no [uri] is given, with or
    without a default staging bucket. *)
Theorem save_model_staging w model a u ie dn ms p l c :
  let r := _models.save_model model a u ie dn ms p l c w in
  let calls := calls_since w r.1 in
  let staging_bucket := initializer.staging_bucket (global_config w) in
  (truthy u = true ->
     filter is_bucket_call calls = [] /\ filter is_unique_name_call calls = []
     /\ buckets r.1 = buckets w)
  /\ (filter is_bucket_call calls <> [] -> truthy u = false /\ truthy staging_bucket = false)
  /\ (filter is_unique_name_call calls <> [] -> truthy u = false)
  /\ (supported w model = true -> truthy u = false ->
      filter is_unique_name_call calls = [TimestampedUniqueName (unique_name (ticks w))])
  /\ (supported w model = true -> truthy u = false -> truthy staging_bucket = false ->
      filter is_bucket_call calls
      = BucketExists (staging_bucket_name w p l)
        :: (if bool_decide (staging_bucket_name w p l ∈ buckets w) then []
            else [CreateBucket (staging_bucket_name w p l)
                    (or_else p (initializer.project (global_config w)))
                    (or_else l (initializer.location (global_config w)))])).
Proof.
  intros r calls staging_bucket. subst r calls staging_bucket.
  destruct (supported w model) eqn:Hs.
  - destruct (save_model_calls w model a u ie dn ms p l c Hs) as ((es & Hc & He1 & He2) & Hb).
    rewrite Hc, !filter_app, He1, He2, !app_nil_r. unfold destination_calls.
    destruct (truthy u) eqn:Hu.
    { cbn [filter list_filter app]. repeat split; try discriminate; try done. apply Hb. reflexivity. }
    destruct (truthy (initializer.staging_bucket (global_config w))) eqn:Hg.
    { cbn. repeat split; try discriminate; try done. }
    destruct (bool_decide (staging_bucket_name w p l ∈ buckets w));
      cbn; repeat split; try discriminate; try done.
  - rewrite save_model_unsupported by exact Hs. cbn [fst]. rewrite calls_since_refl.
    cbn. repeat split; try discriminate; try done.
Qed.


(** C7: when [register_model] is given a serving container image, it asks
    the catalog of prebuilt containers nothing; when it is given none (or an
    empty one), it asks once, for the record's framework and version and the
    region, with the accelerator gpu if and only if the framework is
    tensorflow and the caller asked for GPUs, and cpu otherwise. *)
Theorem register_model_accelerator w model r use_gpu dn image p l c sync rest :
  resolves_to w model r ->
  let res := _models.register_model model use_gpu dn image p l c sync rest w in
  let lookups := filter is_catalog_lookup (calls_since w res.1) in
  (truthy image = true -> lookups = [])
  /\ (truthy image = false ->
      exists accelerator,
        lookups = [PrebuiltContainerLookup (google_artifact_schema.framework_name r)
                     (google_artifact_schema.framework_version r)
                     (or_else l (google_artifact_schema.location r)) accelerator]
        /\ (accelerator = "gpu"
            <-> google_artifact_schema.framework_name r = "tensorflow" /\ use_gpu = true)
        /\ (accelerator = "cpu"
            <-> ~ (google_artifact_schema.framework_name r = "tensorflow" /\ use_gpu = true))).
Proof.
  intros Hr res lookups. subst res lookups.
  unfold _models.register_model, aiplatform.get_experiment_model,
    helpers._get_closest_match_prebuilt_container_uri, Model._generate_display_name,
    Model.upload.
  assert (Hacc : forall acc : string,
            acc = (if (google_artifact_schema.framework_name r =? "tensorflow") && use_gpu
                   then "gpu" else "cpu") ->
            (acc = "gpu"
             <-> google_artifact_schema.framework_name r = "tensorflow" /\ use_gpu = true)
            /\ (acc = "cpu"
             <-> ~ (google_artifact_schema.framework_name r = "tensorflow" /\ use_gpu = true))).
  { intros acc ->.
    destruct (String.eqb_spec (google_artifact_schema.framework_name r) "tensorflow") as [E|E];
      destruct use_gpu; cbn [andb]; split; split;
      try discriminate; try tauto; try (intros [? ?]; congruence);
      try (intros _ [? ?]; congruence);
      try (intros Hn; exfalso; apply Hn; split; [assumption|reflexivity]). }
  destruct model as [id|m]; cbn [resolves_to] in Hr; run; [rewrite Hr; run|subst m];
    (destruct (truthy image) eqn:Hi; run;
     [ destruct (truthy dn); run;
       (split; [intros _|discriminate]);
       (erewrite calls_since_app; [|try rewrite <- app_assoc; reflexivity]); reflexivity
     | destruct (prebuilt_container_uri _ _ _ _); run;
       [|destruct (truthy dn); run];
       (split; [discriminate|intros _]);
       eexists; (split; [|apply Hacc; reflexivity]);
       (erewrite calls_since_app; [|try rewrite <- !app_assoc; reflexivity]); reflexivity ]).
Qed.

(** Without sklearn the loader stops at the import. *)
Lemma load_sklearn_model_without_sklearn w file art :
  modules w !! "sklearn" = None ->
  _models._load_sklearn_model file art w
  = (w, inl (ImportError "sklearn is not installed and is required for loading models.")).
Proof.
  intros Hm. unfold _models._load_sklearn_model. run. rewrite Hm. reflexivity.
Qed.

(** C10: when sklearn cannot be imported, [save_model] fails for every
    model with the UnsupportedFramework error of an unsupported type, a
    ValueError and no ImportError, and changes nothing; the loader, in the
    same world, raises ImportError. *)
Theorem save_model_without_sklearn w model a u ie dn ms p l c file art :
  modules w !! "sklearn" = None ->
  _models.save_model model a u ie dn ms p l c w
  = (w, inl (UnsupportedFramework (_models.qualified_class_name model)))
  /\ (exists msg,
        UnsupportedFramework (_models.qualified_class_name model) = ValueError msg)
  /\ _models._load_sklearn_model file art w
     = (w, inl (ImportError "sklearn is not installed and is required for loading models.")).
Proof.
  intros Hm. split; [|split].
  - apply save_model_unsupported. unfold supported. rewrite Hm. reflexivity.
  - eexists. reflexivity.
  - apply load_sklearn_model_without_sklearn, Hm.
Qed.

(** With sklearn installed the loader compares the versions as strings,
    warns or not, and unpickles the file. *)
Lemma load_sklearn_model_run w file art v :
  modules w !! "sklearn" = Some v ->
  _models._load_sklearn_model file art w
  = if String.ltb v (google_artifact_schema.framework_version art)
    then pickle.load file
           (set_trace (trace w ++
              [LogWarning ("The original model was saved via sklearn "
                 +:+ google_artifact_schema.framework_version art +:+ ". "
                 +:+ "You are using sklearn " +:+ v +:+ "."
                 +:+ "Attempting to load model...")]) w)
    else pickle.load file w.
Proof.
  intros Hm. unfold _models._load_sklearn_model.
  unfold bind at 1. unfold try_except, import_module. rewrite Hm.
  destruct (String.ltb v _); reflexivity.
Qed.

Lemma pickle_load_trace file t w :
  pickle.load file (set_trace t w)
  = (set_trace t (pickle.load file w).1, (pickle.load file w).2).
Proof.
  unfold pickle.load, bind, read_file. cbn [files set_trace].
  destruct (files w !! file) as [content|]; [|reflexivity].
  destruct (pickle_loads content); reflexivity.
Qed.

Lemma pickle_load_world file w : (pickle.load file w).1 = w.
Proof.
  unfold pickle.load, bind, read_file.
  destruct (files w !! file) as [content|]; [|reflexivity].
  destruct (pickle_loads content); reflexivity.
Qed.

(** C6, as amended: loading with sklearn installed logs one warning exactly
    when the running version, as a string, is smaller than the recorded one in
    the lexicographic order of strings, and none otherwise, also when the two
    differ; with or without the warning the file is unpickled and the outcome
    is that of [pickle.load]. *)
Theorem load_version_warning w file art v :
  modules w !! "sklearn" = Some v ->
  let r := _models._load_sklearn_model file art w in
  let recorded := google_artifact_schema.framework_version art in
  filter is_warning (calls_since w r.1)
  = (if String.ltb v recorded
     then [LogWarning ("The original model was saved via sklearn " +:+ recorded
                       +:+ ". You are using sklearn " +:+ v
                       +:+ ".Attempting to load model...")]
     else [])
  /\ r.2 = (pickle.load file w).2.
Proof.
  intros Hm r recorded. subst r recorded. rewrite (load_sklearn_model_run _ _ _ _ Hm).
  destruct (String.ltb v _).
  - rewrite pickle_load_trace, pickle_load_world. cbn [fst snd].
    split; [|reflexivity].
    erewrite calls_since_app by reflexivity. reflexivity.
  - rewrite pickle_load_world, calls_since_refl. split; reflexivity.
Qed.

End SaveLoad.

(** ** The configuration delegate *)

Section Config.

Context `{Libs}.

(** C8: a call of [init] that leaves [remote] out sets the flag to False,
    whatever it was; [remote=None] keeps the flag; [remote=b] sets it to [b];
    and a new [_Config] has the flag False.  This holds whether or not
    [aiplatform.init] raises. *)
Theorem init_remote (self : vertex_ai._Config) kw w :
  vertex_ai.remote (vertex_ai.init self vertex_ai.Omitted kw w).1.1 = false
  /\ vertex_ai.remote (vertex_ai.init self (vertex_ai.Passed None) kw w).1.1
     = vertex_ai.remote self
  /\ (forall b, vertex_ai.remote (vertex_ai.init self (vertex_ai.Passed (Some b)) kw w).1.1 = b)
  /\ vertex_ai.remote vertex_ai.__init__ = false
  /\ vertex_ai.remote vertex_ai.global_config = false.
Proof.
  unfold vertex_ai.init.
  repeat split; intros; try destruct (aiplatform.init kw w); reflexivity.
Qed.

End Config.

(** ** The input-example encoder, on every input *)

Section EncoderOutcomes.

Context `{Libs}.

Lemma encoder_numpy_missing x path w :
  modules w !! "numpy" = None ->
  _models._save_input_example x path w
  = (w, inl (ImportError
        ("numpy is not installed and is required for saving input examples. "
         +:+ "Please install google-cloud-aiplatform[metadata]."))).
Proof.
  intros Hn. unfold _models._save_input_example. run. rewrite Hn. reflexivity.
Qed.

Lemma encoder_yaml_missing x path w :
  is_Some (modules w !! "numpy") ->
  modules w !! "yaml" = None ->
  _models._save_input_example x path w
  = (w, inl (ImportError "PyYAML is not installed and is required for saving input examples.")).
Proof.
  intros [v Hn] Hy. unfold _models._save_input_example. run. rewrite Hn. run.
  rewrite Hy. reflexivity.
Qed.

Lemma encoder_DataFrame_no_pandas w columns path :
  encoder_ready w -> modules w !! "pandas" = None ->
  _models._save_input_example (DataFrame columns) path w = (w, inl UnsupportedInputType).
Proof.
  intros Hr Hp. unfold _models._save_input_example. rewrite encoder_imports by done.
  cbn [isinstance_list isinstance_dict isinstance_ndarray isinstance_DataFrame].
  run. rewrite Hp. reflexivity.
Qed.

Lemma encoder_outcome x path w :
  let r := _models._save_input_example x path w in
  (exists e, r = (w, inl e) /\ encoder_error e)
  \/ (exists kind data,
        r = (writes path (document kind data) w, inr tt) /\ kind ∈ example_tags).
Proof.
  intros r. subst r. unfold example_tags.
  destruct (modules w !! "numpy") as [vn|] eqn:Hn.
  2:{ left. eexists. split; [apply encoder_numpy_missing, Hn|]. left. reflexivity. }
  destruct (modules w !! "yaml") as [vy|] eqn:Hy.
  2:{ left. eexists. split; [apply encoder_yaml_missing; eauto|]. right. left. reflexivity. }
  assert (Hr : encoder_ready w) by (split; eauto).
  destruct x as [ |b|n|f|re im|str|str|dt dv|xs|xs|kvs|rows|columns|cls];
    try (left; eexists; split;
         [apply encoder_other_run; (reflexivity || exact Hr)|unfold encoder_error; auto 10]).
  - rewrite (encoder_list_run w xs path Hr).
    destruct (forallb isinstance_list xs); [right; eexists _, _; split; [reflexivity|set_solver]|].
    destruct (forallb np_isscalar xs); [right; eexists _, _; split; [reflexivity|set_solver]|].
    left. eexists. split; [reflexivity|unfold encoder_error; auto 10].
  - rewrite (encoder_dict_run w kvs path Hr).
    destruct (forallb isinstance_list (map snd kvs));
      [right; eexists _, _; split; [reflexivity|set_solver]|].
    destruct (forallb isinstance_ndarray (map snd kvs));
      [right; eexists _, _; split; [reflexivity|set_solver]|].
    destruct (forallb np_isscalar (map snd kvs));
      [right; eexists _, _; split; [reflexivity|set_solver]|].
    left. eexists. split; [reflexivity|unfold encoder_error; auto 10].
  - right. rewrite (encoder_ndarray_run w rows path Hr).
    eexists _, _. split; [reflexivity|set_solver].
  - destruct (modules w !! "pandas") as [vp|] eqn:Hp.
    + right. rewrite (encoder_DataFrame_run w columns path Hr) by eauto.
      eexists _, _. split; [reflexivity|set_solver].
    + left. rewrite (encoder_DataFrame_no_pandas w columns path Hr Hp).
      eexists. split; [reflexivity|unfold encoder_error; auto 10].
Qed.


(** X2: the imports are checked in the order numpy, PyYAML, before the input
    is looked at: without numpy every input fails with the ImportError that
    names numpy, also when PyYAML is missing too; with numpy and without
    PyYAML every input fails with the one that names PyYAML.  A missing pandas
    is no error of its own: it only turns a DataFrame into an unsupported
    input. *)
Theorem save_input_example_missing_dependency x path w :
  let r := _models._save_input_example x path w in
  (modules w !! "numpy" = None ->
   r = (w, inl (ImportError
                  ("numpy is not installed and is required for saving input examples. "
                   +:+ "Please install google-cloud-aiplatform[metadata]."))))
  /\ (is_Some (modules w !! "numpy") -> modules w !! "yaml" = None ->
      r = (w, inl (ImportError
                     "PyYAML is not installed and is required for saving input examples.")))
  /\ (encoder_ready w -> modules w !! "pandas" = None ->
      r = (w, inl UnsupportedInputType) \/ isinstance_DataFrame x = false).
Proof.
  intros r. subst r. split; [|split].
  - apply encoder_numpy_missing.
  - apply encoder_yaml_missing.
  - intros Hr Hp.
    destruct x as [ |b|n|f|re im|str|str|dt dv|xs|xs|kvs|rows|columns|cls];
      try (right; reflexivity).
    left. apply encoder_DataFrame_no_pandas; assumption.
Qed.

(** X3: for an input that is no DataFrame, pandas makes no difference: two
    processes that agree on numpy, on PyYAML and on the local files get the
    same result and the same files, whether or not pandas is installed in
    either. *)
Theorem save_input_example_pandas_optional w w' x path :
  isinstance_DataFrame x = false ->
  modules w' !! "numpy" = modules w !! "numpy" ->
  modules w' !! "yaml" = modules w !! "yaml" ->
  files w' = files w ->
  let r := _models._save_input_example x path w in
  let r' := _models._save_input_example x path w' in
  r'.2 = r.2 /\ files r'.1 = files r.1.
Proof.
  intros Hx Hn Hy Hf r r'. subst r r'.
  destruct (modules w !! "numpy") as [vn|] eqn:En.
  2:{ rewrite !encoder_numpy_missing by assumption. split; [reflexivity|exact Hf]. }
  destruct (modules w !! "yaml") as [vy|] eqn:Ey.
  2:{ rewrite !encoder_yaml_missing by (rewrite ?Hn, ?En; eauto).
      split; [reflexivity|exact Hf]. }
  assert (Hr : encoder_ready w) by (split; eauto).
  assert (Hr' : encoder_ready w') by (split; [rewrite Hn|rewrite Hy]; eauto).
  destruct x as [ |b|n|f|re im|str|str|dt dv|xs|xs|kvs|rows|columns|cls];
    try discriminate Hx;
    try (rewrite !encoder_other_run by (reflexivity || assumption);
         split; [reflexivity|exact Hf]).
  - rewrite (encoder_list_run w xs path Hr), (encoder_list_run w' xs path Hr').
    unfold writes.
    destruct (forallb isinstance_list xs); [cbn; rewrite Hf; split; reflexivity|].
    destruct (forallb np_isscalar xs); cbn; rewrite Hf; split; reflexivity.
  - rewrite (encoder_dict_run w kvs path Hr), (encoder_dict_run w' kvs path Hr').
    unfold writes.
    destruct (forallb isinstance_list (map snd kvs)); [cbn; rewrite Hf; split; reflexivity|].
    destruct (forallb isinstance_ndarray (map snd kvs));
      [cbn; rewrite Hf; split; reflexivity|].
    destruct (forallb np_isscalar (map snd kvs)); cbn; rewrite Hf; split; reflexivity.
  - rewrite (encoder_ndarray_run w rows path Hr), (encoder_ndarray_run w' rows path Hr').
    unfold writes. cbn. rewrite Hf. split; reflexivity.
Qed.



Lemma indep_ok w w' path path' d (r r' : World * (exn + unit)) :
  r = (writes path d w, inr tt) -> r' = (writes path' d w', inr tt) ->
  (forall e, r = (w, inl e) -> r' = (w', inl e))
  /\ (forall doc, r = (writes path doc w, inr tt) -> r' = (writes path' doc w', inr tt)).
Proof.
  intros -> ->. split; [intros e [=]|]. intros doc [= Hw].
  apply (f_equal (fun fs : gmap string string => fs !! os.path.join path "instance.yaml")) in Hw.
  rewrite !lookup_insert_eq in Hw. injection Hw as Hd.
  unfold writes. rewrite Hd. reflexivity.
Qed.

Lemma indep_err w w' path path' e0 (r r' : World * (exn + unit)) :
  r = (w, inl e0) -> r' = (w', inl e0) ->
  (forall e, r = (w, inl e) -> r' = (w', inl e))
  /\ (forall doc, r = (writes path doc w, inr tt) -> r' = (writes path' doc w', inr tt)).
Proof. intros -> ->. split; [intros e [= <-]; reflexivity|intros doc [=]]. Qed.

(** The outcome of the encoder depends on the world through the installed
    packages only. *)
Lemma encoder_indep w w' x path path' :
  modules w' = modules w ->
  (forall e, _models._save_input_example x path w = (w, inl e) ->
             _models._save_input_example x path' w' = (w', inl e))
  /\ (forall doc, _models._save_input_example x path w = (writes path doc w, inr tt) ->
             _models._save_input_example x path' w' = (writes path' doc w', inr tt)).
Proof.
  intros Hm.
  destruct (modules w !! "numpy") as [vn|] eqn:Hn.
  2:{ eapply indep_err; apply encoder_numpy_missing; [|rewrite Hm]; exact Hn. }
  destruct (modules w !! "yaml") as [vy|] eqn:Hy.
  2:{ eapply indep_err; apply encoder_yaml_missing; rewrite ?Hm; eauto. }
  assert (Hr : encoder_ready w) by (split; eauto).
  assert (Hr' : encoder_ready w') by (unfold encoder_ready; rewrite Hm; exact Hr).
  destruct x as [ |b|n|f|re im|str|str|dt dv|xs|xs|kvs|rows|columns|cls];
    try (eapply indep_err; apply encoder_other_run; (reflexivity || assumption)).
  - rewrite (encoder_list_run w xs path Hr), (encoder_list_run w' xs path' Hr').
    destruct (forallb isinstance_list xs); [eapply indep_ok; reflexivity|].
    destruct (forallb np_isscalar xs); [eapply indep_ok; reflexivity|].
    eapply indep_err; reflexivity.
  - rewrite (encoder_dict_run w kvs path Hr), (encoder_dict_run w' kvs path' Hr').
    destruct (forallb isinstance_list (map snd kvs)); [eapply indep_ok; reflexivity|].
    destruct (forallb isinstance_ndarray (map snd kvs)); [eapply indep_ok; reflexivity|].
    destruct (forallb np_isscalar (map snd kvs)); [eapply indep_ok; reflexivity|].
    eapply indep_err; reflexivity.
  - eapply indep_ok; apply encoder_ndarray_run; assumption.
  - destruct (modules w !! "pandas") as [vp|] eqn:Hp.
    + eapply indep_ok; apply encoder_DataFrame_run; rewrite ?Hm; eauto.
    + eapply indep_err; apply encoder_DataFrame_no_pandas; rewrite ?Hm; eauto.
Qed.

End EncoderOutcomes.

(** ** Artifacts: what saving, loading and registering leave behind *)

Section Artifacts.

Context `{Libs}.

Lemma append_inj_l p a b : p +:+ a = p +:+ b -> a = b.
Proof.
  induction p as [|x p IH]; [intros E; exact E|].
  change (String x (p +:+ a) = String x (p +:+ b) -> a = b).
  intros [= E]. apply IH, E.
Qed.

Lemma join_relative u : exists base, forall n, String.prefix "/" n = false -> os.path.join u n = base +:+ n.
Proof.
  unfold os.path.join.
  destruct ((u =? EmptyString) || endswith u "/").
  - exists u. intros n ->. reflexivity.
  - exists (u +:+ "/"). intros n ->.
    induction u as [|x u IH]; [reflexivity|].
    change (String x (u +:+ "/" +:+ n) = String x ((u +:+ "/") +:+ n)).
    rewrite IH. reflexivity.
Qed.

Lemma join_inj u a b :
  String.prefix "/" a = false -> String.prefix "/" b = false ->
  os.path.join u a = os.path.join u b -> a = b.
Proof.
  intros Ha Hb. destruct (join_relative u) as [base Hj].
  rewrite (Hj a Ha), (Hj b Hb). apply append_inj_l.
Qed.

Lemma listdir_elem d (fs : gmap string string) n c :
  (n, c) ∈ gcs_utils.listdir d fs
  <-> exists p, fs !! p = Some c /\ os.path.relative_to d p = Some n.
Proof.
  unfold gcs_utils.listdir. rewrite list_elem_of_omap. split.
  - intros ([p c'] & Hin%elem_of_map_to_list & Hf). cbn [fst snd] in Hf.
    destruct (os.path.relative_to d p) as [n'|] eqn:Hr; [|discriminate].
    injection Hf as -> ->. exists p. split; assumption.
  - intros (p & Hp & Hr). exists (p, c). split; [apply elem_of_map_to_list, Hp|].
    cbn [fst snd]. rewrite Hr. reflexivity.
Qed.

Lemma upload_other uri (objs : gmap string string) (l : list (string * string)) k :
  (forall f, f ∈ l -> os.path.join uri f.1 <> k) ->
  foldr (fun f o => <[os.path.join uri f.1 := f.2]> o) objs l !! k = objs !! k.
Proof.
  induction l as [|f l IH]; [reflexivity|]. intros Hk. cbn [foldr].
  rewrite lookup_insert_ne by (apply Hk, list_elem_of_here).
  apply IH. intros f' Hf'. apply Hk, list_elem_of_further, Hf'.
Qed.

Lemma upload_there uri (objs : gmap string string) (l : list (string * string)) n c :
  (n, c) ∈ l ->
  (forall f, f ∈ l -> os.path.join uri f.1 = os.path.join uri n -> f.2 = c) ->
  foldr (fun f o => <[os.path.join uri f.1 := f.2]> o) objs l !! os.path.join uri n = Some c.
Proof.
  induction l as [|f l IH]; [intros Hin; inversion Hin|].
  intros Hin Hu. cbn [foldr].
  destruct (decide (os.path.join uri f.1 = os.path.join uri n)) as [E|E].
  - rewrite E, lookup_insert_eq. f_equal. apply Hu; [apply list_elem_of_here|exact E].
  - rewrite lookup_insert_ne by exact E. apply IH.
    + apply elem_of_cons in Hin as [Hf|Hin]; [subst f; exfalso; apply E; reflexivity|exact Hin].
    + intros f' Hf'. apply Hu, list_elem_of_further, Hf'.
Qed.

Lemma rmtree_insert d n c (m : gmap string string) :
  filter (fun kv : string * string => os.path.relative_to d kv.1 = None)
         (<[d +:+ "/" +:+ n := c]> m)
  = filter (fun kv : string * string => os.path.relative_to d kv.1 = None) m.
Proof.
  apply map_eq. intros k. apply option_eq. intros v.
  rewrite !map_lookup_filter_Some, lookup_insert_Some. cbn [fst]. split.
  - intros [[[<- _]|[_ Hk]] Hr]; [rewrite relative_to_under in Hr; discriminate|].
    split; assumption.
  - intros [Hk Hr]. split; [|exact Hr]. right. split; [|exact Hk].
    intros <-. rewrite relative_to_under in Hr. discriminate.
Qed.

Lemma rmtree_twice d (m : gmap string string) :
  filter (fun kv : string * string => os.path.relative_to d kv.1 = None)
    (filter (fun kv : string * string => os.path.relative_to d kv.1 = None) m)
  = filter (fun kv : string * string => os.path.relative_to d kv.1 = None) m.
Proof.
  apply map_eq. intros k. apply option_eq. intros v.
  rewrite !map_lookup_filter_Some. tauto.
Qed.

Lemma listdir_two d a ca b cb (fs : gmap string string) f :
  a <> b ->
  f ∈ gcs_utils.listdir d
        (<[d +:+ "/" +:+ a := ca]>
           (<[d +:+ "/" +:+ b := cb]>
              (filter (fun kv : string * string => os.path.relative_to d kv.1 = None) fs)))
  <-> f = (a, ca) \/ f = (b, cb).
Proof.
  intros Hab. destruct f as [n c]. rewrite listdir_elem. split.
  - intros (p & Hp & Hr). apply lookup_insert_Some in Hp as [[<- <-]|[_ Hp]].
    { rewrite relative_to_under in Hr. injection Hr as <-. left. reflexivity. }
    apply lookup_insert_Some in Hp as [[<- <-]|[_ Hp]].
    { rewrite relative_to_under in Hr. injection Hr as <-. right. reflexivity. }
    apply map_lookup_filter_Some in Hp as [_ Hn]. cbn [fst] in Hn. congruence.
  - intros [[= -> ->]|[= -> ->]].
    + exists (d +:+ "/" +:+ a). rewrite lookup_insert_eq, relative_to_under. split; reflexivity.
    + exists (d +:+ "/" +:+ b). rewrite relative_to_under. split; [|reflexivity].
      rewrite lookup_insert_ne, lookup_insert_eq; [reflexivity|].
      intros E%append_inj_l. injection E as E. exact (Hab E).
Qed.

(** The temporary directory of [save_model] when the input example is
    accepted: both files are uploaded, nothing else is touched in the
    storage, and the directory is gone. *)
Lemma store_example_ok w model uri x doc :
  (forall path w0, modules w0 = modules w ->
     _models._save_input_example x path w0 = (writes path doc w0, inr tt)) ->
  let r := store (_models.SaveMethod _models._save_sklearn_model) model "model.pkl" uri
             (Some x) w in
  r.2 = inr (Some {| schema_utils.instance_schema_uri := os.path.join uri "instance.yaml" |})
  /\ objects r.1 !! os.path.join uri "model.pkl"
     = Some (pickle_dumps model _models._PICKLE_PROTOCOL)
  /\ objects r.1 !! os.path.join uri "instance.yaml" = Some (yaml_dump doc None false)
  /\ (forall k, k <> os.path.join uri "model.pkl" -> k <> os.path.join uri "instance.yaml" ->
        objects r.1 !! k = objects w !! k)
  /\ files r.1 = files (tempfile.rmtree (tempfile.mkdtemp_name (tmp_count w)) w)
  /\ trace r.1 = (trace w ++ [UploadToGcs (tempfile.mkdtemp_name (tmp_count w)) uri])%list
  /\ modules r.1 = modules w /\ artifacts r.1 = artifacts w
  /\ global_config r.1 = global_config w /\ ticks r.1 = ticks w /\ buckets r.1 = buckets w.
Proof.
  intros Henc.
  unfold store, tempfile.TemporaryDirectory, tempfile.rmtree, _models.call_save,
    _models._save_sklearn_model, pickle.dump.
  run. rewrite Henc by reflexivity. unfold writes, gcs_utils.upload_to_gcs. run.
  rewrite !mkdtemp_join by reflexivity.
  set (d := tempfile.mkdtemp_name (tmp_count w)).
  assert (Hne : "instance.yaml" <> "model.pkl") by discriminate.
  repeat split.
  - apply upload_there.
    + apply listdir_two; [exact Hne|]. right. reflexivity.
    + intros f [->| ->]%listdir_two; [|reflexivity|exact Hne].
      cbn [fst snd]. intros E%join_inj; [discriminate E|reflexivity|reflexivity].
  - apply upload_there.
    + apply listdir_two; [exact Hne|]. left. reflexivity.
    + intros f [->| ->]%listdir_two; [reflexivity| |exact Hne].
      cbn [fst snd]. intros E%join_inj; [discriminate E|reflexivity|reflexivity].
  - intros k Hk1 Hk2. apply upload_other.
    intros f [->| ->]%listdir_two; [| |exact Hne]; cbn [fst]; congruence.
  - rewrite !rmtree_insert, rmtree_twice. reflexivity.
Qed.

(** The same when the input example is refused: nothing is uploaded. *)
Lemma store_example_err w model uri x e :
  (forall path w0, modules w0 = modules w ->
     _models._save_input_example x path w0 = (w0, inl e)) ->
  let r := store (_models.SaveMethod _models._save_sklearn_model) model "model.pkl" uri
             (Some x) w in
  r.2 = inl e
  /\ objects r.1 = objects w
  /\ files r.1 = files (tempfile.rmtree (tempfile.mkdtemp_name (tmp_count w)) w)
  /\ trace r.1 = trace w
  /\ modules r.1 = modules w /\ artifacts r.1 = artifacts w
  /\ global_config r.1 = global_config w /\ ticks r.1 = ticks w /\ buckets r.1 = buckets w.
Proof.
  intros Henc.
  unfold store, tempfile.TemporaryDirectory, tempfile.rmtree, _models.call_save,
    _models._save_sklearn_model, pickle.dump.
  run. rewrite Henc by reflexivity. run.
  rewrite !mkdtemp_join by reflexivity.
  repeat split. rewrite !rmtree_insert, rmtree_twice. reflexivity.
Qed.

(** And with no input example. *)
Lemma store_none_files w model uri :
  let r := store (_models.SaveMethod _models._save_sklearn_model) model "model.pkl" uri
             None w in
  files r.1 = files (tempfile.rmtree (tempfile.mkdtemp_name (tmp_count w)) w)
  /\ trace r.1 = (trace w ++ [UploadToGcs (tempfile.mkdtemp_name (tmp_count w)) uri])%list
  /\ buckets r.1 = buckets w.
Proof.
  unfold store, tempfile.TemporaryDirectory, tempfile.rmtree, _models.call_save,
    _models._save_sklearn_model, pickle.dump, gcs_utils.upload_to_gcs.
  run. rewrite !mkdtemp_join by reflexivity.
  repeat split. rewrite !rmtree_insert, rmtree_twice. reflexivity.
Qed.

(** Resolving the destination touches the buckets, the clock and the trace,
    and nothing else. *)
Lemma destination_frame w fw u p l c :
  exists w1 uri p' l' c',
    destination fw u p l c w = (w1, inr (uri, p', l', c'))
    /\ modules w1 = modules w /\ global_config w1 = global_config w
    /\ files w1 = files w /\ tmp_count w1 = tmp_count w
    /\ objects w1 = objects w /\ artifacts w1 = artifacts w
    /\ trace w1 = (trace w ++ destination_calls w u p l)%list
    /\ (truthy u = true -> uri = default EmptyString u).
Proof.
  unfold destination_calls.
  destruct (truthy u) eqn:Hu.
  { eexists _, _, _, _, _. rewrite destination_given by exact Hu.
    rewrite app_nil_r. repeat split. }
  destruct (truthy (initializer.staging_bucket (global_config w))) eqn:Hs.
  { eexists _, _, _, _, _. rewrite destination_staged by assumption.
    repeat split. discriminate. }
  destruct (decide (staging_bucket_name w p l ∈ buckets w)) as [Hb|Hb].
  - eexists _, _, _, _, _. rewrite destination_found by assumption.
    rewrite (bool_decide_eq_true_2 _ Hb). repeat split. discriminate.
  - eexists _, _, _, _, _. rewrite destination_created by assumption.
    rewrite (bool_decide_eq_false_2 _ Hb). repeat split. discriminate.
Qed.

Lemma save_model_run w model v a u ie dn ms p l c w1 dest :
  modules w !! "sklearn" = Some v ->
  isinstance model "sklearn.base.BaseEstimator" = true ->
  destination "sklearn" u p l c w = (w1, inr dest) ->
  _models.save_model model a u ie dn ms p l c w = finish model v ie a dn ms dest w1.
Proof.
  intros Hm Hi Hd. rewrite (save_model_supported_run w model v a u ie dn ms p l c Hm Hi).
  unfold bind. rewrite Hd. reflexivity.
Qed.

Lemma finish_after_store w model v ie a dn ms uri p l c w2 ps :
  store (_models.SaveMethod _models._save_sklearn_model) model "model.pkl" uri ie w = (w2, inr ps) ->
  let art := created_record w2 model v ps a dn ms uri p l c in
  let id := match a with Some id => id | None => assigned_artifact_id (ticks w2) end in
  finish model v ie a dn ms (uri, p, l, c) w
  = (set_trace (trace w2 ++ [CreateArtifact ms id])
       (set_artifacts (<[id := art]> (artifacts w2)) (set_ticks (S (ticks w2)) w2)),
     inr art).
Proof.
  intros Hs. unfold finish, bind. rewrite Hs.
  unfold ExperimentModel.create, ExperimentModel.new, created_record, _models.or_credentials.
  cbn. reflexivity.
Qed.

Lemma finish_store_fails w model v ie a dn ms uri p l c w2 e :
  store (_models.SaveMethod _models._save_sklearn_model) model "model.pkl" uri ie w = (w2, inl e) ->
  finish model v ie a dn ms (uri, p, l, c) w = (w2, inl e).
Proof. intros Hs. unfold finish, bind. rewrite Hs. reflexivity. Qed.

Lemma or_else_idem p x : or_else (Some (or_else p x)) x = or_else p x.
Proof.
  unfold or_else. destruct p as [s|].
  - destruct (s =? EmptyString) eqn:E; [|rewrite E; reflexivity].
    destruct (x =? EmptyString); reflexivity.
  - destruct (x =? EmptyString); reflexivity.
Qed.

Lemma or_credentials_idem c x :
  _models.or_credentials (_models.or_credentials c x) x = _models.or_credentials c x.
Proof. destruct c, x; reflexivity. Qed.

(** Whichever way the destination is found, the project, location and
    credentials it leaves give the created record the caller's values, or
    the configured ones. *)
Lemma destination_settings w fw u p l c w1 uri p' l' c' :
  destination fw u p l c w = (w1, inr (uri, p', l', c')) ->
  or_else p' (initializer.project (global_config w))
  = or_else p (initializer.project (global_config w))
  /\ or_else l' (initializer.location (global_config w))
     = or_else l (initializer.location (global_config w))
  /\ _models.or_credentials c' (initializer.credentials (global_config w))
     = _models.or_credentials c (initializer.credentials (global_config w))
  /\ ticks w1 = (if truthy u then ticks w else S (ticks w)).
Proof.
  destruct (truthy u) eqn:Hu.
  { rewrite destination_given by exact Hu. intros [= <- <- <- <- <-]. repeat split. }
  destruct (truthy (initializer.staging_bucket (global_config w))) eqn:Hs.
  { rewrite destination_staged by assumption. intros [= <- <- <- <- <-]. repeat split. }
  destruct (decide (staging_bucket_name w p l ∈ buckets w)) as [Hb|Hb].
  - rewrite destination_found by assumption. intros [= <- <- <- <- <-].
    rewrite !or_else_idem, or_credentials_idem. repeat split.
  - rewrite destination_created by assumption. intros [= <- <- <- <- <-].
    rewrite !or_else_idem, or_credentials_idem. repeat split.
Qed.

(** The two ways [finish] ends: the encoder refuses the input example, or
    the files are uploaded and the record is created. *)
Lemma finish_cases w model v ie a dn ms uri p l c :
  let r := finish model v ie a dn ms (uri, p, l, c) w in
  let id := match a with Some id => id | None => assigned_artifact_id (ticks w) end in
  let ps := match ie with
            | Some _ => Some {| schema_utils.instance_schema_uri :=
                                  os.path.join uri "instance.yaml" |}
            | None => None
            end in
  (exists e, encoder_error e /\ is_Some ie /\ r.2 = inl e
             /\ objects r.1 = objects w /\ artifacts r.1 = artifacts w
             /\ trace r.1 = trace w)
  \/ (r.2 = inr (created_record w model v ps a dn ms uri p l c)
      /\ artifacts r.1 = <[id := created_record w model v ps a dn ms uri p l c]> (artifacts w)
      /\ objects r.1 !! os.path.join uri "model.pkl"
         = Some (pickle_dumps model _models._PICKLE_PROTOCOL)
      /\ modules r.1 = modules w
      /\ trace r.1 = (trace w ++ [UploadToGcs (tempfile.mkdtemp_name (tmp_count w)) uri;
                                 CreateArtifact ms id])%list).
Proof.
  intros r id ps. subst r id ps.
  destruct ie as [x|].
  - destruct (encoder_outcome x EmptyString w) as [(e & He & Herr)|(k & d & He & _)].
    + left. exists e.
      assert (Henc : forall path w0, modules w0 = modules w ->
                _models._save_input_example x path w0 = (w0, inl e)).
      { intros path w0 Hw0. apply (encoder_indep w w0 x EmptyString path); assumption. }
      pose proof (store_example_err w model uri x e Henc)
        as (Hs & Hos & _ & Hts & _ & Has & _).
      destruct (store _ model "model.pkl" uri (Some x) w) as [w2 r2] eqn:Es.
      cbn [fst snd] in *. subst r2.
      rewrite (finish_store_fails w model v (Some x) a dn ms uri p l c w2 e Es).
      cbn [fst snd]. repeat split; try assumption. eexists; reflexivity.
    + right.
      assert (Henc : forall path w0, modules w0 = modules w ->
                _models._save_input_example x path w0
                = (writes path (document k d) w0, inr tt)).
      { intros path w0 Hw0. apply (encoder_indep w w0 x EmptyString path); assumption. }
      pose proof (store_example_ok w model uri x _ Henc)
        as (Hs & Hom & _ & _ & _ & Hts & Hms & Has & Hgs & Hks & _).
      destruct (store _ model "model.pkl" uri (Some x) w) as [w2 r2] eqn:Es.
      cbn [fst snd] in *. subst r2.
      rewrite (finish_after_store w model v (Some x) a dn ms uri p l c w2 _ Es).
      cbn [fst snd objects artifacts modules trace set_trace set_artifacts set_ticks].
      unfold created_record. rewrite Hks, Hgs, Has, Hts, <- app_assoc.
      repeat split; assumption.
  - right.
    pose proof (store_none w model uri) as (Hs & Hos & Hms & Has & Hgs & Hks).
    pose proof (store_none_files w model uri) as (_ & Hts & _).
    destruct (store _ model "model.pkl" uri None w) as [w2 r2] eqn:Es.
    cbn [fst snd] in *. subst r2.
    rewrite (finish_after_store w model v None a dn ms uri p l c w2 _ Es).
    cbn [fst snd objects artifacts modules trace set_trace set_artifacts set_ticks].
    unfold created_record. rewrite Hks, Hgs, Has, Hts, Hos, <- app_assoc.
    rewrite lookup_insert_eq. repeat split; assumption.
Qed.



(** X7: however [save_model] ends for a supported model, the temporary
    directory is gone: no file is left under it, and every other local file
    is as before. *)
Theorem save_model_cleanup w model a u ie dn ms p l c :
  supported w model = true ->
  let r := _models.save_model model a u ie dn ms p l c w in
  let temp_dir := tempfile.mkdtemp_name (tmp_count w) in
  (forall path, os.path.relative_to temp_dir path = None ->
     files r.1 !! path = files w !! path)
  /\ (forall path, os.path.relative_to temp_dir path <> None -> files r.1 !! path = None).
Proof.
  intros (v & Hm & Hi)%supported_inv r temp_dir. subst r temp_dir.
  destruct (destination_frame w "sklearn" u p l c)
    as (w1 & uri & p' & l' & c' & Hd & Hm1 & Hg1 & Hf1 & Ht1 & Ho1 & Ha1 & Hr1 & Hu1).
  rewrite (save_model_run w model v a u ie dn ms p l c w1 _ Hm Hi Hd).
  assert (Hfiles : files (finish model v ie a dn ms (uri, p', l', c') w1).1
                   = files (tempfile.rmtree (tempfile.mkdtemp_name (tmp_count w)) w)).
  { rewrite <- Ht1. unfold tempfile.rmtree at 1. cbn [files set_files]. rewrite <- Hf1.
    change (files (finish model v ie a dn ms (uri, p', l', c') w1).1
            = files (tempfile.rmtree (tempfile.mkdtemp_name (tmp_count w1)) w1)).
    destruct ie as [x|].
    - destruct (encoder_outcome x EmptyString w1) as [(e & He & _)|(k & d & He & _)].
      + assert (Henc : forall path w0, modules w0 = modules w1 ->
                  _models._save_input_example x path w0 = (w0, inl e)).
        { intros path w0 Hw0. apply (encoder_indep w1 w0 x EmptyString path); assumption. }
        pose proof (store_example_err w1 model uri x e Henc) as (Hs & _ & Hfs & _).
        destruct (store _ model "model.pkl" uri (Some x) w1) as [w2 r2] eqn:Es.
        cbn [fst snd] in *. subst r2.
        rewrite (finish_store_fails w1 model v (Some x) a dn ms uri p' l' c' w2 e Es).
        exact Hfs.
      + assert (Henc : forall path w0, modules w0 = modules w1 ->
                  _models._save_input_example x path w0
                  = (writes path (document k d) w0, inr tt)).
        { intros path w0 Hw0. apply (encoder_indep w1 w0 x EmptyString path); assumption. }
        pose proof (store_example_ok w1 model uri x _ Henc) as (Hs & _ & _ & _ & Hfs & _).
        destruct (store _ model "model.pkl" uri (Some x) w1) as [w2 r2] eqn:Es.
        cbn [fst snd] in *. subst r2.
        rewrite (finish_after_store w1 model v (Some x) a dn ms uri p' l' c' w2 _ Es).
        exact Hfs.
    - pose proof (store_none w1 model uri) as (Hs & _).
      pose proof (store_none_files w1 model uri) as (Hfs & _).
      destruct (store _ model "model.pkl" uri None w1) as [w2 r2] eqn:Es.
      cbn [fst snd] in *. subst r2.
      rewrite (finish_after_store w1 model v None a dn ms uri p' l' c' w2 _ Es).
      exact Hfs. }
  rewrite Hfiles. unfold tempfile.rmtree. cbn [files set_files]. split.
  - intros path Hp. destruct (files w !! path) as [content|] eqn:Hl.
    + apply map_lookup_filter_Some. split; assumption.
    + apply map_lookup_filter_None. left. exact Hl.
  - intros path Hp. apply map_lookup_filter_None. right. intros content _. exact Hp.
Qed.

(** X8: the record of a successful [save_model].  Success implies that
    sklearn is installed and the model is one of its estimators; the record
    has the framework sklearn with the installed version, the file name
    model.pkl, the model's qualified class name, the display name and the
    store given, the caller's project, location and credentials or else the
    configured ones, a schema reference exactly when an input example was
    given, the caller's uri and identifier when given; and the metadata store
    is the old one with this record added under its identifier. *)
Theorem save_model_record w model a u ie dn ms p l c w' art :
  _models.save_model model a u ie dn ms p l c w = (w', inr art) ->
  let cfg := global_config w in
  (exists v, modules w !! "sklearn" = Some v
             /\ google_artifact_schema.framework_version art = v)
  /\ isinstance model "sklearn.base.BaseEstimator" = true
  /\ google_artifact_schema.framework_name art = "sklearn"
  /\ google_artifact_schema.model_file art = "model.pkl"
  /\ google_artifact_schema.model_class art = _models.qualified_class_name model
  /\ google_artifact_schema.display_name art = dn
  /\ google_artifact_schema.metadata_store_id art = ms
  /\ google_artifact_schema.project art = or_else p (initializer.project cfg)
  /\ google_artifact_schema.location art = or_else l (initializer.location cfg)
  /\ google_artifact_schema.credentials art
     = _models.or_credentials c (initializer.credentials cfg)
  /\ google_artifact_schema.predict_schemata art
     = match ie with
       | Some _ => Some {| schema_utils.instance_schema_uri :=
                             os.path.join (google_artifact_schema.uri art) "instance.yaml" |}
       | None => None
       end
  /\ (truthy u = true -> google_artifact_schema.uri art = default EmptyString u)
  /\ (exists id, google_artifact_schema.artifact_id art = Some id
                 /\ (forall id', a = Some id' -> id = id')
                 /\ artifacts w' = <[id := art]> (artifacts w)).
Proof.
  intros Hrun cfg. subst cfg.
  destruct (supported w model) eqn:Hsup;
    [|rewrite (save_model_unsupported w model a u ie dn ms p l c Hsup) in Hrun; discriminate].
  apply supported_inv in Hsup as (v & Hm & Hi).
  destruct (destination_frame w "sklearn" u p l c)
    as (w1 & uri & p' & l' & c' & Hd & Hm1 & Hg1 & Hf1 & Ht1 & Ho1 & Ha1 & Hr1 & Hu1).
  destruct (destination_settings w "sklearn" u p l c w1 uri p' l' c' Hd) as (Hp & Hl & Hc & _).
  rewrite (save_model_run w model v a u ie dn ms p l c w1 _ Hm Hi Hd) in Hrun.
  destruct (finish_cases w1 model v ie a dn ms uri p' l' c')
    as [(e & _ & _ & He & _)|(Hr & Har & _)];
    rewrite Hrun in *; cbn [fst snd] in *; [discriminate|].
  injection Hr as ->.
  unfold created_record.
  cbn [google_artifact_schema.framework_name google_artifact_schema.framework_version
       google_artifact_schema.model_file google_artifact_schema.model_class
       google_artifact_schema.predict_schemata google_artifact_schema.artifact_id
       google_artifact_schema.uri google_artifact_schema.display_name
       google_artifact_schema.metadata_store_id google_artifact_schema.project
       google_artifact_schema.location google_artifact_schema.credentials].
  rewrite Hg1, Hp, Hl, Hc.
  split; [exists v; split; [exact Hm|reflexivity]|].
  repeat (split; [first [reflexivity | assumption]|]).
  eexists. split; [reflexivity|]. split.
  - intros id' ->. reflexivity.
  - rewrite Har, Ha1. unfold created_record. rewrite Hg1, Hp, Hl, Hc. reflexivity.
Qed.

(** X9: a successful [save_model] calls its collaborators in this order: the
    calls that resolve the destination, one upload of the temporary directory
    to the record's uri, and only then the creation of the artifact. *)
Theorem save_model_trace w model a u ie dn ms p l c w' art :
  _models.save_model model a u ie dn ms p l c w = (w', inr art) ->
  exists id,
    google_artifact_schema.artifact_id art = Some id
    /\ calls_since w w'
       = (destination_calls w u p l
          ++ [UploadToGcs (tempfile.mkdtemp_name (tmp_count w)) (google_artifact_schema.uri art);
              CreateArtifact ms id])%list.
Proof.
  intros Hrun.
  destruct (supported w model) eqn:Hsup;
    [|rewrite (save_model_unsupported w model a u ie dn ms p l c Hsup) in Hrun; discriminate].
  apply supported_inv in Hsup as (v & Hm & Hi).
  destruct (destination_frame w "sklearn" u p l c)
    as (w1 & uri & p' & l' & c' & Hd & _ & _ & _ & Ht1 & _ & _ & Hr1 & _).
  rewrite (save_model_run w model v a u ie dn ms p l c w1 _ Hm Hi Hd) in Hrun.
  destruct (finish_cases w1 model v ie a dn ms uri p' l' c')
    as [(e & _ & _ & He & _)|(Hr & _ & _ & _ & Htr)];
    rewrite Hrun in *; cbn [fst snd] in *; [discriminate|].
  injection Hr as ->. eexists. split; [reflexivity|].
  apply calls_since_app. rewrite Htr, Hr1, Ht1, <- app_assoc. reflexivity.
Qed.

(** What a successful [save_model] leaves: the record, and the model file
    under the record's uri. *)
Lemma save_model_success w model a u ie dn ms p l c w' art :
  _models.save_model model a u ie dn ms p l c w = (w', inr art) ->
  exists v,
    modules w !! "sklearn" = Some v
    /\ google_artifact_schema.framework_name art = "sklearn"
    /\ google_artifact_schema.framework_version art = v
    /\ google_artifact_schema.project art = or_else p (initializer.project (global_config w))
    /\ google_artifact_schema.location art
       = or_else l (initializer.location (global_config w))
    /\ google_artifact_schema.credentials art
       = _models.or_credentials c (initializer.credentials (global_config w))
    /\ objects w' !! os.path.join (google_artifact_schema.uri art) "model.pkl"
       = Some (pickle_dumps model _models._PICKLE_PROTOCOL).
Proof.
  intros Hrun.
  destruct (supported w model) eqn:Hsup;
    [|rewrite (save_model_unsupported w model a u ie dn ms p l c Hsup) in Hrun; discriminate].
  apply supported_inv in Hsup as (v & Hm & Hi).
  destruct (destination_frame w "sklearn" u p l c)
    as (w1 & uri & p' & l' & c' & Hd & _ & Hg1 & _).
  destruct (destination_settings w "sklearn" u p l c w1 uri p' l' c' Hd) as (Hp & Hl & Hc & _).
  rewrite (save_model_run w model v a u ie dn ms p l c w1 _ Hm Hi Hd) in Hrun.
  destruct (finish_cases w1 model v ie a dn ms uri p' l' c')
    as [(e & _ & _ & He & _)|(Hr & _ & Ho & _)];
    rewrite Hrun in *; cbn [fst snd] in *; [discriminate|].
  injection Hr as ->. exists v. unfold created_record.
  cbn [google_artifact_schema.framework_name google_artifact_schema.framework_version
       google_artifact_schema.uri google_artifact_schema.project
       google_artifact_schema.location google_artifact_schema.credentials].
  rewrite Hg1, Hp, Hl, Hc. repeat split; assumption.
Qed.

Lemma ltb_irrefl (s : string) : String.ltb s s = false.
Proof.
  unfold String.ltb.
  pose proof (String.compare_antisym s s) as Hc.
  destruct (String.compare s s); [reflexivity|discriminate Hc|reflexivity].
Qed.

Lemma specs_only_sklearn (fw : string) :
  fw <> "sklearn" -> contains _models._FRAMEWORK_SPECS fw = false.
Proof.
  intros Hfw. unfold contains, _models._FRAMEWORK_SPECS.
  apply bool_decide_eq_false_2. rewrite lookup_singleton_ne by congruence.
  intros [x Hx]. discriminate Hx.
Qed.

(** [load_model] on a record of the sklearn framework: the download, then
    the loader on the downloaded file, then the removal of the directory. *)
Lemma load_model_sklearn_run w art :
  google_artifact_schema.framework_name art = "sklearn" ->
  let d := tempfile.mkdtemp_name (tmp_count w) in
  let src := os.path.join (google_artifact_schema.uri art) "model.pkl" in
  let dst := d +:+ "/" +:+ "model.pkl" in
  let w1 := set_trace (trace w ++ [DownloadFromGcs src dst])
              (set_tmp_count (S (tmp_count w)) (tempfile.rmtree d w)) in
  _models.load_model (inr art) w
  = match objects w !! src with
    | None => (tempfile.rmtree d w1, inl (NotFound src))
    | Some content =>
        let r := _models._load_sklearn_model dst art
                   (set_files (<[dst := content]> (files w1)) w1) in
        (tempfile.rmtree d r.1, r.2)
    end.
Proof.
  intros Hf d src dst w1. subst d src dst w1. unfold _models.load_model.
  run. rewrite Hf.
  change (contains _models._FRAMEWORK_SPECS "sklearn") with true. run.
  rewrite specs_sklearn.
  change (({[ "save_method" := "_save_sklearn_model";
            "load_method" := "_load_sklearn_model";
            "model_file" := "model.pkl" ]} : gmap string string) !! "load_method")
    with (Some "_load_sklearn_model").
  run. rewrite globals_load.
  change (({[ "save_method" := "_save_sklearn_model";
            "load_method" := "_load_sklearn_model";
            "model_file" := "model.pkl" ]} : gmap string string) !! "model_file")
    with (Some "model.pkl").
  run.
  unfold tempfile.TemporaryDirectory, gcs_utils.download_file_from_gcs, _models.call_load.
  run. rewrite !mkdtemp_join by reflexivity.
  change (objects (tempfile.rmtree (tempfile.mkdtemp_name (tmp_count w)) w)) with (objects w).
  destruct (objects w !! _) as [content|]; run; [|reflexivity].
  destruct (_models._load_sklearn_model _ art _) as [w3 r3]. reflexivity.
Qed.

(** The loader reads and logs; it changes nothing else. *)
Lemma load_sklearn_model_frame w file art :
  let r := _models._load_sklearn_model file art w in
  r.2 = match modules w !! "sklearn" with
        | None => inl (ImportError "sklearn is not installed and is required for loading models.")
        | Some _ => (pickle.load file w).2
        end
  /\ files r.1 = files w /\ objects r.1 = objects w /\ artifacts r.1 = artifacts w
  /\ buckets r.1 = buckets w /\ global_config r.1 = global_config w
  /\ tmp_count r.1 = tmp_count w /\ ticks r.1 = ticks w /\ modules r.1 = modules w
  /\ trace r.1
     = (trace w ++ match modules w !! "sklearn" with
                   | Some v =>
                       if String.ltb v (google_artifact_schema.framework_version art)
                       then [LogWarning ("The original model was saved via sklearn "
                               +:+ google_artifact_schema.framework_version art +:+ ". "
                               +:+ "You are using sklearn " +:+ v +:+ "."
                               +:+ "Attempting to load model...")]
                       else []
                   | None => []
                   end)%list.
Proof.
  intros r. subst r.
  destruct (modules w !! "sklearn") as [v|] eqn:Hm.
  - rewrite (load_sklearn_model_run w file art v Hm).
    destruct (String.ltb v _).
    + rewrite pickle_load_trace. cbn [fst snd]. rewrite pickle_load_world. repeat split.
    + rewrite pickle_load_world, app_nil_r. repeat split.
  - rewrite (load_sklearn_model_without_sklearn w file art Hm), app_nil_r. repeat split.
Qed.


Lemma load_model_by_id_run w id art :
  artifacts w !! id = Some art ->
  _models.load_model (inl id) w
  = _models.load_model (inr art) (set_trace (trace w ++ [GetExperimentModel id]) w).
Proof.
  intros Ha. unfold _models.load_model, aiplatform.get_experiment_model.
  unfold bind at 1 6. unfold bind at 1. unfold emit, modify, bind at 1, gets, ret.
  cbn [artifacts set_trace fst snd]. rewrite Ha. reflexivity.
Qed.

Lemma load_model_outcome_record w art :
  google_artifact_schema.framework_name art = "sklearn" ->
  let r := _models.load_model (inr art) w in
  let src := os.path.join (google_artifact_schema.uri art) "model.pkl" in
  let d := tempfile.mkdtemp_name (tmp_count w) in
  r.2 = match objects w !! src with
        | None => inl (NotFound src)
        | Some content =>
            match modules w !! "sklearn" with
            | None => inl (ImportError
                             "sklearn is not installed and is required for loading models.")
            | Some _ =>
                match pickle_loads content with
                | Some m => inr m
                | None => inl UnpicklingError
                end
            end
        end
  /\ files r.1 = files (tempfile.rmtree d w)
  /\ objects r.1 = objects w /\ artifacts r.1 = artifacts w /\ buckets r.1 = buckets w
  /\ global_config r.1 = global_config w /\ tmp_count r.1 = S (tmp_count w)
  /\ trace r.1
     = (trace w ++ DownloadFromGcs src (d +:+ "/" +:+ "model.pkl")
          :: match objects w !! src, modules w !! "sklearn" with
             | Some _, Some v =>
                 if String.ltb v (google_artifact_schema.framework_version art)
                 then [LogWarning ("The original model was saved via sklearn "
                         +:+ google_artifact_schema.framework_version art +:+ ". "
                         +:+ "You are using sklearn " +:+ v +:+ "."
                         +:+ "Attempting to load model...")]
                 else []
             | _, _ => []
             end)%list.
Proof.
  intros Hf r src d. subst r src d. rewrite (load_model_sklearn_run w art Hf).
  cbn zeta.
  destruct (objects w !! _) as [content|].
  - match goal with
    | |- context [_models._load_sklearn_model ?f art ?w2] =>
        pose proof (load_sklearn_model_frame w2 f art)
          as (Hr & Hfs & Hos & Has & Hbs & Hgs & Hts & _ & _ & Htr);
        destruct (_models._load_sklearn_model f art w2) as [w3 r3]
    end.
    cbn [fst snd modules files objects artifacts buckets global_config tmp_count trace
         set_trace set_files set_tmp_count] in *.
    unfold tempfile.rmtree in *.
    cbn [modules files objects artifacts buckets global_config tmp_count trace set_files
         set_trace set_tmp_count] in *.
    rewrite Hfs, Hos, Has, Hbs, Hgs, Hts, Htr, Hr.
    split.
    { destruct (modules w !! "sklearn"); [|reflexivity].
      unfold pickle.load, bind, read_file. cbn [files set_trace set_files].
      rewrite lookup_insert_eq. destruct (pickle_loads content); reflexivity. }
    split.
    { rewrite rmtree_insert. apply rmtree_twice. }
    rewrite <- app_assoc. repeat split.
  - unfold tempfile.rmtree. cbn. repeat split. apply rmtree_twice.
Qed.

Lemma load_model_resolved w model art :
  resolves_to w model art ->
  _models.load_model model w
  = _models.load_model (inr art) (set_trace (trace w ++ lookup_calls model) w).
Proof.
  destruct model as [id|m]; cbn [resolves_to lookup_calls].
  - apply load_model_by_id_run.
  - intros ->. rewrite app_nil_r. destruct w. reflexivity.
Qed.

(** X11: [load_model] on a record of the sklearn framework, passed or
    looked up.  The model file is downloaded before sklearn is imported: a
    missing object is the storage's NotFound, also without sklearn; with the
    object there and sklearn missing it is the loader's ImportError; otherwise
    the result is the unpickled content.  In every case the storage, the
    metadata store and the configuration are untouched and the temporary
    directory is gone. *)
Theorem load_model_outcome w model art :
  resolves_to w model art ->
  google_artifact_schema.framework_name art = "sklearn" ->
  let r := _models.load_model model w in
  let src := os.path.join (google_artifact_schema.uri art) "model.pkl" in
  r.2 = match objects w !! src with
        | None => inl (NotFound src)
        | Some content =>
            match modules w !! "sklearn" with
            | None => inl (ImportError
                             "sklearn is not installed and is required for loading models.")
            | Some _ =>
                match pickle_loads content with
                | Some m => inr m
                | None => inl UnpicklingError
                end
            end
        end
  /\ files r.1 = files (tempfile.rmtree (tempfile.mkdtemp_name (tmp_count w)) w)
  /\ objects r.1 = objects w /\ artifacts r.1 = artifacts w /\ buckets r.1 = buckets w
  /\ global_config r.1 = global_config w /\ tmp_count r.1 = S (tmp_count w).
Proof.
  intros Hres Hf r src. subst r src. rewrite (load_model_resolved w model art Hres).
  pose proof (load_model_outcome_record (set_trace (trace w ++ lookup_calls model) w) art Hf)
    as (Hr & Hfs & Hos & Has & Hbs & Hgs & Hts & _).
  cbn zeta in *. rewrite Hr, Hfs, Hos, Has, Hbs, Hgs, Hts. repeat split.
Qed.

(** X12: the calls of [load_model] on a record of the sklearn framework: the
    look-up when an identifier is passed, one download of model.pkl from the
    record's uri into the temporary directory, and the version warning exactly
    when the object is there, sklearn is installed and its version string is
    below the recorded one. *)
Theorem load_model_calls w model art :
  resolves_to w model art ->
  google_artifact_schema.framework_name art = "sklearn" ->
  let r := _models.load_model model w in
  let src := os.path.join (google_artifact_schema.uri art) "model.pkl" in
  let recorded := google_artifact_schema.framework_version art in
  calls_since w r.1
  = (lookup_calls model
     ++ DownloadFromGcs src (tempfile.mkdtemp_name (tmp_count w) +:+ "/" +:+ "model.pkl")
        :: match objects w !! src, modules w !! "sklearn" with
           | Some _, Some v =>
               if String.ltb v recorded
               then [LogWarning ("The original model was saved via sklearn " +:+ recorded
                                 +:+ ". You are using sklearn " +:+ v
                                 +:+ ".Attempting to load model...")]
               else []
           | _, _ => []
           end)%list.
Proof.
  intros Hres Hf r src recorded. subst r src recorded.
  rewrite (load_model_resolved w model art Hres).
  pose proof (load_model_outcome_record (set_trace (trace w ++ lookup_calls model) w) art Hf)
    as (_ & _ & _ & _ & _ & _ & _ & Htr).
  cbn zeta in Htr. cbn [objects modules tmp_count trace set_trace] in Htr.
  apply calls_since_app. rewrite Htr, <- app_assoc. reflexivity.
Qed.

(** X13: [load_model] on a record whose framework is not in the registry
    raises a ValueError that names the recorded framework; beyond the look-up
    of the record nothing is called and nothing changes: no temporary
    directory is made and nothing is downloaded. *)
Theorem load_model_unsupported_framework w model art :
  resolves_to w model art ->
  google_artifact_schema.framework_name art <> "sklearn" ->
  _models.load_model model w
  = (set_trace (trace w ++ lookup_calls model) w,
     inl (ValueError ("Model type " +:+ google_artifact_schema.framework_name art
                      +:+ " not supported."))).
Proof.
  intros Hres Hf. rewrite (load_model_resolved w model art Hres).
  unfold _models.load_model. run. rewrite (specs_only_sklearn _ Hf). reflexivity.
Qed.

(** X14: an identifier the metadata store does not hold: [load_model] and
    [register_model] both fail with the store's NotFound right after the
    look-up, before anything else is called. *)
Theorem unknown_artifact_id w id use_gpu dn image p l c sync rest :
  artifacts w !! id = None ->
  _models.load_model (inl id) w
  = (set_trace (trace w ++ [GetExperimentModel id]) w, inl (NotFound id))
  /\ _models.register_model (inl id) use_gpu dn image p l c sync rest w
     = (set_trace (trace w ++ [GetExperimentModel id]) w, inl (NotFound id)).
Proof.
  intros Ha. unfold _models.load_model, _models.register_model,
    aiplatform.get_experiment_model.
  run. rewrite Ha. split; reflexivity.
Qed.

(** X15: the round trip with any arguments.  After a successful
    [save_model], with or without an input example, [load_model] on the record
    returned, or on its identifier, gives the model back when the pickler
    does; it makes one download, from the record's uri, logs no version
    warning, and leaves the storage and the metadata store as [save_model]
    left them. *)
Theorem save_then_load w model a u ie dn ms p l c w' art :
  _models.save_model model a u ie dn ms p l c w = (w', inr art) ->
  pickle_loads (pickle_dumps model _models._PICKLE_PROTOCOL) = Some model ->
  forall handle, resolves_to w' handle art ->
    let r := _models.load_model handle w' in
    r.2 = inr model
    /\ calls_since w' r.1
       = (lookup_calls handle
          ++ [DownloadFromGcs (os.path.join (google_artifact_schema.uri art) "model.pkl")
                (tempfile.mkdtemp_name (tmp_count w') +:+ "/" +:+ "model.pkl")])%list
    /\ objects r.1 = objects w' /\ artifacts r.1 = artifacts w'.
Proof.
  intros Hrun Hp handle Hres r. subst r.
  destruct (supported w model) eqn:Hsup;
    [|rewrite (save_model_unsupported w model a u ie dn ms p l c Hsup) in Hrun; discriminate].
  apply supported_inv in Hsup as (v & Hm & Hi).
  destruct (destination_frame w "sklearn" u p l c)
    as (w1 & uri & p' & l' & c' & Hd & Hm1 & _).
  rewrite (save_model_run w model v a u ie dn ms p l c w1 _ Hm Hi Hd) in Hrun.
  destruct (finish_cases w1 model v ie a dn ms uri p' l' c')
    as [(e & _ & _ & He & _)|(Hr & _ & Ho & Hms & _)];
    rewrite Hrun in *; cbn [fst snd] in *; [discriminate|].
  injection Hr as ->.
  rewrite (load_model_resolved w' handle _ Hres).
  match goal with
  | |- context [_models.load_model (inr ?art) ?w2] =>
      pose proof (load_model_outcome_record w2 art eq_refl)
        as (Hr & _ & Hos & Has & _ & _ & _ & Htr)
  end.
  cbn zeta in Hr, Htr.
  cbn [created_record google_artifact_schema.uri google_artifact_schema.framework_version
       modules objects artifacts tmp_count trace set_trace] in *.
  rewrite Ho, Hms, Hm1, Hm, Hp in Hr. rewrite Ho, Hms, Hm1, Hm, ltb_irrefl in Htr.
  split; [exact Hr|]. split; [|split; assumption].
  apply calls_since_app. rewrite Htr, <- app_assoc. reflexivity.
Qed.

Lemma register_model_resolved w model r use_gpu dn image p l c sync rest :
  resolves_to w model r ->
  _models.register_model model use_gpu dn image p l c sync rest w
  = _models.register_model (inr r) use_gpu dn image p l c sync rest
      (set_trace (trace w ++ lookup_calls model) w).
Proof.
  destruct model as [id|m]; cbn [resolves_to lookup_calls].
  - intros Ha. unfold _models.register_model, aiplatform.get_experiment_model.
    unfold bind at 1 5. unfold bind at 1. unfold emit, modify, bind at 1, gets, ret.
    cbn [artifacts set_trace fst snd]. rewrite Ha. reflexivity.
  - intros ->. rewrite app_nil_r. destruct w. reflexivity.
Qed.

(** X16: when [register_model] returns a model, the request the registry
    received has the record's uri as artifact uri; the caller's project,
    location and credentials or else the record's; [sync] and the other
    arguments as passed; the caller's display name, or one generated from the
    framework name followed by [ model]; the caller's container image, or the
    one the catalog gave for the framework, version and region.  The upload
    is the last call and the only upload, and neither the storage, the
    metadata store nor the local files change. *)
Theorem register_model_request w model r use_gpu dn image p l c sync rest w' m :
  resolves_to w model r ->
  _models.register_model model use_gpu dn image p l c sync rest w = (w', inr m) ->
  let req := models.request m in
  let framework := google_artifact_schema.framework_name r in
  models.artifact_uri req = google_artifact_schema.uri r
  /\ models.project req = or_else p (google_artifact_schema.project r)
  /\ models.location req = or_else l (google_artifact_schema.location r)
  /\ models.credentials req
     = _models.or_credentials c (google_artifact_schema.credentials r)
  /\ models.sync req = sync /\ models.passthrough req = rest
  /\ models.display_name req
     = (if truthy dn then dn
        else Some (generated_display_name (framework +:+ " model") (ticks w)))
  /\ (if truthy image then models.serving_container_image_uri req = image
      else exists uri,
          models.serving_container_image_uri req = Some uri
          /\ prebuilt_container_uri framework (google_artifact_schema.framework_version r)
               (or_else l (google_artifact_schema.location r))
               (if (framework =? "tensorflow") && use_gpu then "gpu" else "cpu")
             = inr uri)
  /\ filter is_model_upload (calls_since w w') = [ModelUpload req]
  /\ last (trace w') = Some (ModelUpload req)
  /\ objects w' = objects w /\ artifacts w' = artifacts w /\ files w' = files w
  /\ buckets w' = buckets w.
Proof.
  intros Hres. rewrite (register_model_resolved w model r use_gpu dn image p l c sync rest Hres).
  unfold _models.register_model, helpers._get_closest_match_prebuilt_container_uri,
    Model._generate_display_name, Model.upload.
  run. destruct (truthy image) eqn:Hi; run.
  - destruct (truthy dn) eqn:Hn; run; intros [= <- <-];
      cbn [models.request models.artifact_uri models.project models.location
           models.credentials models.sync models.passthrough models.display_name
           models.serving_container_image_uri trace objects artifacts files buckets
           ticks set_trace set_ticks];
      rewrite last_snoc;
      (erewrite calls_since_app; [|rewrite <- app_assoc; reflexivity]);
      rewrite filter_app; destruct model; repeat split.
  - destruct (prebuilt_container_uri _ _ _ _) as [e|uri] eqn:Hc; run; [intros [=]|].
    destruct (truthy dn) eqn:Hn; run; intros [= <- <-];
      cbn [models.request models.artifact_uri models.project models.location
           models.credentials models.sync models.passthrough models.display_name
           models.serving_container_image_uri trace objects artifacts files buckets
           ticks set_trace set_ticks];
      rewrite last_snoc;
      (erewrite calls_since_app; [|rewrite <- !app_assoc; reflexivity]);
      rewrite filter_app; destruct model; repeat split; exists uri; split; reflexivity.
Qed.

(** X17: when no container image is given and the catalog has none, the
    catalog's error is the error of [register_model]; nothing is uploaded and
    no display name is generated. *)
Theorem register_model_catalog_failure w model r use_gpu dn p l c sync rest image e :
  resolves_to w model r ->
  truthy image = false ->
  prebuilt_container_uri (google_artifact_schema.framework_name r)
    (google_artifact_schema.framework_version r)
    (or_else l (google_artifact_schema.location r))
    (if (google_artifact_schema.framework_name r =? "tensorflow") && use_gpu
     then "gpu" else "cpu") = inl e ->
  let res := _models.register_model model use_gpu dn image p l c sync rest w in
  res.2 = inl e
  /\ filter is_model_upload (calls_since w res.1) = []
  /\ ticks res.1 = ticks w.
Proof.
  intros Hres Hi Hc res. subst res.
  rewrite (register_model_resolved w model r use_gpu dn image p l c sync rest Hres).
  unfold _models.register_model, helpers._get_closest_match_prebuilt_container_uri.
  run. rewrite Hi. run. rewrite Hc. run.
  split; [reflexivity|]. split; [|reflexivity].
  erewrite calls_since_app by (rewrite <- app_assoc; reflexivity).
  destruct model; reflexivity.
Qed.

(** X18: registering what [save_model] saved.  With no container image
    given, the catalog is asked once, for sklearn at the installed version in
    the region resolved from the two calls, and for cpu whether or not GPUs
    are requested.  When the registration returns, the request's artifact uri
    is a directory that holds the pickled model, and its project, location
    and credentials are those of the registration, else those of the save,
    else the configured ones. *)
Theorem save_then_register w model a u ie dn ms p l c w' art use_gpu dn2 p2 l2 c2 sync rest :
  _models.save_model model a u ie dn ms p l c w = (w', inr art) ->
  forall handle, resolves_to w' handle art ->
    let res := _models.register_model handle use_gpu dn2 None p2 l2 c2 sync rest w' in
    let region := or_else l2 (or_else l (initializer.location (global_config w))) in
    (exists v, modules w !! "sklearn" = Some v
               /\ filter is_catalog_lookup (calls_since w' res.1)
                  = [PrebuiltContainerLookup "sklearn" v region "cpu"])
    /\ (forall m, res.2 = inr m ->
          objects res.1 !! os.path.join (models.artifact_uri (models.request m)) "model.pkl"
          = Some (pickle_dumps model _models._PICKLE_PROTOCOL)
          /\ models.project (models.request m)
             = or_else p2 (or_else p (initializer.project (global_config w)))
          /\ models.location (models.request m) = region
          /\ models.credentials (models.request m)
             = _models.or_credentials c2
                 (_models.or_credentials c (initializer.credentials (global_config w)))).
Proof.
  intros Hrun handle Hres res region. subst res region.
  destruct (save_model_success w model a u ie dn ms p l c w' art Hrun)
    as (v & Hm & Hfw & Hv & Hp & Hl & Hc & Ho).
  rewrite (register_model_resolved w' handle art use_gpu dn2 None p2 l2 c2 sync rest Hres).
  unfold _models.register_model, helpers._get_closest_match_prebuilt_container_uri,
    Model._generate_display_name, Model.upload.
  run. cbn [truthy negb]. run. rewrite Hfw, Hv, Hl, Hp, Hc.
  change (("sklearn" =? "tensorflow") && use_gpu) with false. cbn iota.
  destruct (prebuilt_container_uri _ _ _ _) as [e|uri]; run.
  - split; [|intros m [=]]. exists v. split; [exact Hm|].
    erewrite calls_since_app by (rewrite <- app_assoc; reflexivity).
    rewrite filter_app. destruct handle; reflexivity.
  - destruct (truthy dn2); run.
    + split; [|intros m [= <-]; cbn; repeat split; exact Ho].
      exists v. split; [exact Hm|].
      erewrite calls_since_app by (rewrite <- !app_assoc; reflexivity).
      rewrite filter_app. destruct handle; reflexivity.
    + split; [|intros m [= <-]; cbn; repeat split; exact Ho].
      exists v. split; [exact Hm|].
      erewrite calls_since_app by (rewrite <- !app_assoc; reflexivity).
      rewrite filter_app. destruct handle; reflexivity.
Qed.

End Artifacts.

(** ** The configuration delegate and the shared configuration *)

Section Delegate.

Context `{Libs}.


(** X20: when [aiplatform.init] refuses the keywords, its error is the error
    of [_Config.init] and the shared configuration is untouched; the remote
    flag has been set all the same, since it is assigned before the call. *)
Theorem config_init_failure (self : vertex_ai._Config) flag kw w e :
  configure kw (global_config w) = inl e ->
  let r := vertex_ai.init self flag kw w in
  r.2 = inl e
  /\ r.1.2 = w
  /\ vertex_ai.remote r.1.1
     = match flag with
       | vertex_ai.Omitted => false
       | vertex_ai.Passed None => vertex_ai.remote self
       | vertex_ai.Passed (Some b) => b
       end.
Proof.
  intros Hc r. subst r.
  unfold vertex_ai.init, aiplatform.init. run. rewrite Hc. run.
  destruct flag as [|[b|]]; repeat split.
Qed.

End Delegate.

(** ** Examples *)

#[local] Existing Instance Demo.libs.


(** C1 at the demo estimator, saved to the staging bucket the call creates. *)
Lemma save_load_roundtrip_witness :
  supported Demo.world Demo.estimator = true
  /\ pickle_loads (pickle_dumps Demo.estimator _models._PICKLE_PROTOCOL) = Some Demo.estimator
  /\ exists w' art id,
       _models.save_model Demo.estimator None None None None (Some "default") None None None
         Demo.world = (w', inr art)
       /\ google_artifact_schema.artifact_id art = Some id
       /\ google_artifact_schema.model_class art = _models.qualified_class_name Demo.estimator
       /\ (_models.load_model (inl id) w').2 = inr Demo.estimator.
Proof.
  assert (Hs : supported Demo.world Demo.estimator = true) by (vm_compute; reflexivity).
  assert (Hp : pickle_loads (pickle_dumps Demo.estimator _models._PICKLE_PROTOCOL)
               = Some Demo.estimator) by (vm_compute; reflexivity).
  split; [exact Hs|]. split; [exact Hp|].
  exact (save_load_roundtrip Demo.world Demo.estimator None None None (Some "default")
           None None None Hs Hp).
Defined.

(** Saving under a given identifier and destination, and loading again. *)
Example save_load_example :
  let r := _models.save_model Demo.estimator (Some "my-model") (Some "gs://my-bucket/my-model")
             None None (Some "default") None None None Demo.world in
  (_models.load_model (inl "my-model") r.1).2 = inr Demo.estimator
  /\ objects r.1 !! "gs://my-bucket/my-model/model.pkl"
     = Some "4:sklearn.linear_model._base.LinearRegression"
  /\ calls_since Demo.world r.1
     = [UploadToGcs "/tmp/tmp" "gs://my-bucket/my-model";
        CreateArtifact (Some "default") "my-model"].
Proof. vm_compute. repeat split. Qed.


(** Seven numbers are all kept. *)
Example save_input_example_scalars :
  (_models._save_input_example (PyList Demo.seven_numbers) "/tmp/example" Demo.world).1
  = writes "/tmp/example" (document "list" (PyList Demo.seven_numbers)) Demo.world
  /\ files (writes "/tmp/example" (document "list" (PyList Demo.seven_numbers)) Demo.world)
     !! "/tmp/example/instance.yaml"
     = Some "{input_example: {type: list, data: [1, 2, 3, 4, 5, 6, 7]}}".
Proof. vm_compute. split; reflexivity. Qed.


(** A scalar beside a list is refused. *)
Example save_input_example_mixed_dict :
  _models._save_input_example
    (PyDict [(PyStr "x", PyInt 1); (PyStr "y", PyList [PyInt 1; PyInt 2])])
    "/tmp/example" Demo.world
  = (Demo.world, inl InvalidInputKind_dict).
Proof. vm_compute. reflexivity. Qed.


(** A string is none of the four accepted shapes. *)
Example save_input_example_unsupported :
  _models._save_input_example (PyStr "rows") "/tmp/example" Demo.world
  = (Demo.world, inl UnsupportedInputType).
Proof. vm_compute. reflexivity. Qed.

(** C4 at a plain dict handed in as the model. *)
Lemma save_model_unsupported_framework_witness :
  supported Demo.world Demo.plain_dict = false
  /\ (_models.save_model Demo.plain_dict None None None None (Some "default") None None None
        Demo.world).2
     = inl (ValueError "Model type builtins.dict not supported.").
Proof.
  assert (Hs : supported Demo.world Demo.plain_dict = false) by (vm_compute; reflexivity).
  split; [exact Hs|].
  apply (save_model_unsupported_framework Demo.world Demo.plain_dict None None None None
           (Some "default") None None None).
  exact Hs.
Defined.

(** C5 as stated fails: with no uri and a default staging bucket configured,
    the destination is still composed from a timestamped unique name. *)
Lemma save_model_staging_counterexample :
  let w := Demo.world_with_staging_bucket in
  let r := _models.save_model Demo.estimator None None None None (Some "default")
             None None None w in
  initializer.staging_bucket (global_config w) = Some "gs://my-bucket"
  /\ filter is_unique_name_call (calls_since w r.1)
     = [TimestampedUniqueName "2023-03-01-12-00-00-0"]
  /\ match r.2 with
     | inr art =>
         google_artifact_schema.uri art = "gs://my-bucket/2023-03-01-12-00-00-0-sklearn-model"
     | inl _ => False
     end.
Proof. vm_compute. repeat split. Qed.

(** C5, as amended, at a call with a destination and at one without: the
    first asks nothing about buckets, the second looks the staging bucket up
    and, as it is absent, creates it. *)
Lemma save_model_staging_witness :
  let given :=
    _models.save_model Demo.estimator None (Some "gs://my-bucket/my-model") None None
      (Some "default") None None None Demo.world in
  let staged :=
    _models.save_model Demo.estimator None None None None (Some "default") None None None
      Demo.world in
  (filter is_bucket_call (calls_since Demo.world given.1) = []
   /\ filter is_unique_name_call (calls_since Demo.world given.1) = []
   /\ buckets given.1 = buckets Demo.world)
  /\ filter is_bucket_call (calls_since Demo.world staged.1)
     = [BucketExists "my-project-vertex-staging-us-central1";
        CreateBucket "my-project-vertex-staging-us-central1" "my-project" "us-central1"].
Proof.
  split.
  - apply (save_model_staging Demo.world Demo.estimator None (Some "gs://my-bucket/my-model")
             None None (Some "default") None None None).
    reflexivity.
  - destruct (save_model_staging Demo.world Demo.estimator None None None None
                (Some "default") None None None) as (_ & _ & _ & _ & Hb).
    rewrite Hb by (vm_compute; reflexivity). vm_compute. reflexivity.
Defined.

(** With no uri and no default staging bucket the bucket is looked up, then
    created. *)
Example save_model_creates_bucket :
  let r := _models.save_model Demo.estimator None None None None (Some "default")
             None None None Demo.world in
  filter is_bucket_call (calls_since Demo.world r.1)
  = [BucketExists "my-project-vertex-staging-us-central1";
     CreateBucket "my-project-vertex-staging-us-central1" "my-project" "us-central1"]
  /\ bool_decide ("my-project-vertex-staging-us-central1" ∈ buckets r.1) = true.
Proof. vm_compute. split; reflexivity. Qed.

(** C10 in a process without sklearn. *)
Lemma save_model_without_sklearn_witness :
  modules Demo.world_without_sklearn !! "sklearn" = None
  /\ _models.save_model Demo.estimator None None None None (Some "default") None None None
       Demo.world_without_sklearn
     = (Demo.world_without_sklearn,
        inl (ValueError "Model type sklearn.linear_model._base.LinearRegression not supported."))
  /\ _models._load_sklearn_model "/tmp/model.pkl" (Demo.saved_by "1.2.0")
       Demo.world_without_sklearn
     = (Demo.world_without_sklearn,
        inl (ImportError "sklearn is not installed and is required for loading models.")).
Proof.
  assert (Hm : modules Demo.world_without_sklearn !! "sklearn" = None)
    by (vm_compute; reflexivity).
  split; [exact Hm|].
  destruct (save_model_without_sklearn Demo.world_without_sklearn Demo.estimator None None
              None None (Some "default") None None None "/tmp/model.pkl"
              (Demo.saved_by "1.2.0") Hm) as (Hs & _ & Hl).
  split; [exact Hs|exact Hl].
Defined.

(** C6 as stated fails: sklearn 1.2.0 loads a model saved by 1.1.0, the
    versions differ, and no warning is logged. *)
Lemma load_version_warning_counterexample :
  let w := Demo.world_with_model_file in
  let r := _models._load_sklearn_model "/tmp/model.pkl" (Demo.saved_by "1.1.0") w in
  modules w !! "sklearn" = Some "1.2.0"
  /\ google_artifact_schema.framework_version (Demo.saved_by "1.1.0") = "1.1.0"
  /\ "1.2.0" <> "1.1.0"
  /\ filter is_warning (calls_since w r.1) = []
  /\ r.2 = inr Demo.estimator.
Proof. vm_compute. repeat split. discriminate. Qed.

(** C6, as amended, at a model saved by a later version: one warning, and the
    model is loaded. *)
Lemma load_version_warning_witness :
  modules Demo.world_with_model_file !! "sklearn" = Some "1.2.0"
  /\ filter is_warning
       (calls_since Demo.world_with_model_file
          (_models._load_sklearn_model "/tmp/model.pkl" (Demo.saved_by "1.3.0")
             Demo.world_with_model_file).1)
     = [LogWarning
          "The original model was saved via sklearn 1.3.0. You are using sklearn 1.2.0.Attempting to load model..."]
  /\ (_models._load_sklearn_model "/tmp/model.pkl" (Demo.saved_by "1.3.0")
        Demo.world_with_model_file).2
     = inr Demo.estimator.
Proof.
  assert (Hm : modules Demo.world_with_model_file !! "sklearn" = Some "1.2.0")
    by (vm_compute; reflexivity).
  split; [exact Hm|].
  destruct (load_version_warning Demo.world_with_model_file "/tmp/model.pkl"
              (Demo.saved_by "1.3.0") "1.2.0" Hm) as (Hw & Hr).
  split; [exact Hw|]. rewrite Hr. vm_compute. reflexivity.
Defined.

(** The comparison is that of strings: 1.2.0 is not below 1.10.0, so a model
    saved by 1.10.0 loads under 1.2.0 without a warning. *)
Example load_version_lexicographic :
  let w := Demo.world_with_model_file in
  let r := _models._load_sklearn_model "/tmp/model.pkl" (Demo.saved_by "1.10.0") w in
  String.ltb "1.2.0" "1.10.0" = false
  /\ filter is_warning (calls_since w r.1) = []
  /\ r.2 = inr Demo.estimator.
Proof. vm_compute. repeat split. Qed.

(** C7 at a sklearn record with GPUs requested: the catalog is asked for cpu. *)
Lemma register_model_accelerator_witness :
  resolves_to Demo.world (inr (Demo.saved_by "1.2.0")) (Demo.saved_by "1.2.0")
  /\ filter is_catalog_lookup
       (calls_since Demo.world
          (_models.register_model (inr (Demo.saved_by "1.2.0")) true None None None
             (Some "us-central1") None (Some true) [] Demo.world).1)
     = [PrebuiltContainerLookup "sklearn" "1.2.0" "us-central1" "cpu"].
Proof.
  assert (Hr : resolves_to Demo.world (inr (Demo.saved_by "1.2.0")) (Demo.saved_by "1.2.0"))
    by reflexivity.
  split; [exact Hr|].
  destruct (register_model_accelerator Demo.world (inr (Demo.saved_by "1.2.0"))
              (Demo.saved_by "1.2.0") true None None None (Some "us-central1") None
              (Some true) [] Hr) as (_ & Hl).
  destruct (Hl eq_refl) as (acc & Hacc & _ & Hcpu).
  rewrite Hacc. f_equal. f_equal. apply Hcpu. intros [Hf _]. discriminate Hf.
Defined.

(** A tensorflow record with GPUs requested: gpu; with an image given: no
    look-up. *)
Example register_model_gpu :
  let tf := ExperimentModel.new "tensorflow" "2.11" "saved_model.pb" "keras.Model" None
              (Some "tf-model") "gs://my-bucket/tf-model" None in
  filter is_catalog_lookup
    (calls_since Demo.world
       (_models.register_model (inr tf) true None None None (Some "us-central1") None
          (Some true) [] Demo.world).1)
  = [PrebuiltContainerLookup "tensorflow" "2.11" "us-central1" "gpu"]
  /\ filter is_catalog_lookup
       (calls_since Demo.world
          (_models.register_model (inr tf) true None (Some "gcr.io/my/image") None
             (Some "us-central1") None (Some true) [] Demo.world).1)
     = [].
Proof. vm_compute. split; reflexivity. Qed.

(** C8 on the process-wide instance: set, reset by a call that leaves remote
    out, kept by remote=None. *)
Example init_remote_example :
  let started := (vertex_ai.init vertex_ai.global_config (vertex_ai.Passed (Some true)) []
                    Demo.world).1.1 in
  vertex_ai.remote started = true
  /\ vertex_ai.remote (vertex_ai.init started vertex_ai.Omitted [] Demo.world).1.1 = false
  /\ vertex_ai.remote (vertex_ai.init started (vertex_ai.Passed None) [] Demo.world).1.1 = true.
Proof. vm_compute. repeat split. Qed.

(** [os.path.join] on the paths of the artifact layout. *)
Example join_plain : os.path.join "gs://bucket/model" "model.pkl" = "gs://bucket/model/model.pkl".
Proof. reflexivity. Qed.

Example join_trailing_sep : os.path.join "gs://bucket/model/" "model.pkl" = "gs://bucket/model/model.pkl".
Proof. reflexivity. Qed.

(** ** Examples of the further properties *)

(** The demo estimator is supported in the demo process, and the demo
    pickler gives it back. *)
Lemma demo_supported : supported Demo.world Demo.estimator = true.
Proof. vm_compute. reflexivity. Defined.

Lemma demo_pickle :
  pickle_loads (pickle_dumps Demo.estimator _models._PICKLE_PROTOCOL) = Some Demo.estimator.
Proof. vm_compute. reflexivity. Defined.


Lemma save_input_example_pandas_optional_witness :
  isinstance_DataFrame (PyList Demo.seven_numbers) = false
  /\ modules Cases.world_with_pandas !! "numpy" = modules Demo.world !! "numpy"
  /\ modules Cases.world_with_pandas !! "yaml" = modules Demo.world !! "yaml"
  /\ files Cases.world_with_pandas = files Demo.world
  /\ (_models._save_input_example (PyList Demo.seven_numbers) "/tmp/example"
        Cases.world_with_pandas).2
     = (_models._save_input_example (PyList Demo.seven_numbers) "/tmp/example" Demo.world).2.
Proof.
  assert (Hn : modules Cases.world_with_pandas !! "numpy" = modules Demo.world !! "numpy")
    by (vm_compute; reflexivity).
  assert (Hy : modules Cases.world_with_pandas !! "yaml" = modules Demo.world !! "yaml")
    by (vm_compute; reflexivity).
  split; [reflexivity|]. split; [exact Hn|]. split; [exact Hy|]. split; [reflexivity|].
  exact (proj1 (save_input_example_pandas_optional Demo.world Cases.world_with_pandas
                  (PyList Demo.seven_numbers) "/tmp/example" eq_refl Hn Hy eq_refl)).
Defined.



Lemma save_model_cleanup_witness :
  supported Demo.world Demo.estimator = true
  /\ files (_models.save_model Demo.estimator None None (Some (PyList Demo.seven_numbers))
              None (Some "default") None None None Demo.world).1
     !! "/tmp/tmp/model.pkl" = None.
Proof.
  split; [exact demo_supported|].
  apply (proj2 (save_model_cleanup Demo.world Demo.estimator None None
                  (Some (PyList Demo.seven_numbers)) None (Some "default") None None None
                  demo_supported)).
  vm_compute. discriminate.
Defined.

Lemma save_model_record_witness :
  exists w' art,
    _models.save_model Demo.estimator (Some "my-model") (Some "gs://my-bucket/my-model")
      None (Some "demo") (Some "default") None None None Demo.world = (w', inr art)
    /\ google_artifact_schema.framework_name art = "sklearn"
    /\ google_artifact_schema.model_file art = "model.pkl".
Proof.
  assert (Hok : match (_models.save_model Demo.estimator (Some "my-model")
                         (Some "gs://my-bucket/my-model") None (Some "demo") (Some "default")
                         None None None Demo.world).2 with
                | inr _ => True
                | inl _ => False
                end) by (vm_compute; exact I).
  destruct (_models.save_model Demo.estimator (Some "my-model")
              (Some "gs://my-bucket/my-model") None (Some "demo") (Some "default")
              None None None Demo.world) as [w' [e|art]] eqn:E; [destruct Hok|].
  - exists w', art. split; [reflexivity|].
    pose proof (save_model_record _ _ _ _ _ _ _ _ _ _ _ _ E) as Hrec.
    cbv zeta in Hrec. destruct Hrec as (_ & _ & Hf & Hm & _). split; assumption.
Defined.

Lemma save_model_trace_witness :
  exists w' art id,
    _models.save_model Demo.estimator (Some "my-model") (Some "gs://my-bucket/my-model")
      None None (Some "default") None None None Demo.world = (w', inr art)
    /\ google_artifact_schema.artifact_id art = Some id
    /\ calls_since Demo.world w'
       = [UploadToGcs "/tmp/tmp" (google_artifact_schema.uri art);
          CreateArtifact (Some "default") id].
Proof.
  assert (Hok : match (_models.save_model Demo.estimator (Some "my-model")
              (Some "gs://my-bucket/my-model") None None (Some "default")
              None None None Demo.world).2 with
                      | inr _ => True
                      | inl _ => False
                      end) by (vm_compute; exact I).
  destruct (_models.save_model Demo.estimator (Some "my-model")
              (Some "gs://my-bucket/my-model") None None (Some "default")
              None None None Demo.world) as [w' [e|art]] eqn:E; [destruct Hok|].
  - destruct (save_model_trace _ _ _ _ _ _ _ _ _ _ _ _ E) as (id & Hid & Hc).
    exists w', art, id. split; [reflexivity|]. split; [exact Hid|exact Hc].
Defined.

Lemma save_then_load_witness :
  pickle_loads (pickle_dumps Demo.estimator _models._PICKLE_PROTOCOL) = Some Demo.estimator
  /\ exists w' art,
       _models.save_model Demo.estimator None None (Some (PyList Demo.seven_numbers)) None
         (Some "default") None None None Demo.world = (w', inr art)
       /\ resolves_to w' (inr art) art
       /\ (_models.load_model (inr art) w').2 = inr Demo.estimator.
Proof.
  split; [exact demo_pickle|].
  assert (Hok : match (_models.save_model Demo.estimator None None (Some (PyList Demo.seven_numbers))
              None (Some "default") None None None Demo.world).2 with
                      | inr _ => True
                      | inl _ => False
                      end) by (vm_compute; exact I).
  destruct (_models.save_model Demo.estimator None None (Some (PyList Demo.seven_numbers))
              None (Some "default") None None None Demo.world) as [w' [e|art]] eqn:E; [destruct Hok|].
  - exists w', art. split; [reflexivity|]. split; [reflexivity|].
    exact (proj1 (save_then_load _ _ _ _ _ _ _ _ _ _ _ _ E demo_pickle (inr art) eq_refl)).
Defined.

Lemma save_then_register_witness :
  exists w' art,
    _models.save_model Demo.estimator None None None None (Some "default") None None None
      Demo.world = (w', inr art)
    /\ resolves_to w' (inr art) art
    /\ exists v,
         modules Demo.world !! "sklearn" = Some v
         /\ filter is_catalog_lookup
              (calls_since w'
                 (_models.register_model (inr art) true None None None None None (Some true)
                    [] w').1)
            = [PrebuiltContainerLookup "sklearn" v "us-central1" "cpu"].
Proof.
  assert (Hok : match (_models.save_model Demo.estimator None None None None (Some "default")
              None None None Demo.world).2 with
                      | inr _ => True
                      | inl _ => False
                      end) by (vm_compute; exact I).
  destruct (_models.save_model Demo.estimator None None None None (Some "default")
              None None None Demo.world) as [w' [e|art]] eqn:E; [destruct Hok|].
  - exists w', art. split; [reflexivity|]. split; [reflexivity|].
    exact (proj1 (save_then_register _ _ _ _ _ _ _ _ _ _ _ _ true None None None None
                    (Some true) [] E (inr art) eq_refl)).
Defined.

Lemma load_model_outcome_witness :
  resolves_to Demo.world (inr (Demo.saved_by "1.2.0")) (Demo.saved_by "1.2.0")
  /\ google_artifact_schema.framework_name (Demo.saved_by "1.2.0") = "sklearn"
  /\ (_models.load_model (inr (Demo.saved_by "1.2.0")) Demo.world).2
     = inl (NotFound "gs://my-bucket/my-model/model.pkl").
Proof.
  split; [reflexivity|]. split; [reflexivity|].
  etransitivity;
    [exact (proj1 (load_model_outcome Demo.world (inr (Demo.saved_by "1.2.0"))
                     (Demo.saved_by "1.2.0") eq_refl eq_refl))|].
  vm_compute. reflexivity.
Defined.

Lemma load_model_calls_witness :
  resolves_to Demo.world (inr (Demo.saved_by "1.2.0")) (Demo.saved_by "1.2.0")
  /\ google_artifact_schema.framework_name (Demo.saved_by "1.2.0") = "sklearn"
  /\ calls_since Demo.world
       (_models.load_model (inr (Demo.saved_by "1.2.0")) Demo.world).1
     = [DownloadFromGcs "gs://my-bucket/my-model/model.pkl" "/tmp/tmp/model.pkl"].
Proof.
  split; [reflexivity|]. split; [reflexivity|].
  etransitivity;
    [exact (load_model_calls Demo.world (inr (Demo.saved_by "1.2.0"))
              (Demo.saved_by "1.2.0") eq_refl eq_refl)|].
  vm_compute. reflexivity.
Defined.

Lemma load_model_unsupported_framework_witness :
  resolves_to Demo.world (inr Cases.tensorflow_record) Cases.tensorflow_record
  /\ google_artifact_schema.framework_name Cases.tensorflow_record <> "sklearn"
  /\ (_models.load_model (inr Cases.tensorflow_record) Demo.world).2
     = inl (ValueError "Model type tensorflow not supported.").
Proof.
  assert (Hf : google_artifact_schema.framework_name Cases.tensorflow_record <> "sklearn")
    by discriminate.
  split; [reflexivity|]. split; [exact Hf|].
  rewrite (load_model_unsupported_framework Demo.world (inr Cases.tensorflow_record)
             Cases.tensorflow_record eq_refl Hf).
  reflexivity.
Defined.

Lemma unknown_artifact_id_witness :
  artifacts Demo.world !! "missing" = None
  /\ (_models.load_model (inl "missing") Demo.world).2 = inl (NotFound "missing").
Proof.
  assert (Ha : artifacts Demo.world !! "missing" = None) by (vm_compute; reflexivity).
  split; [exact Ha|].
  rewrite (proj1 (unknown_artifact_id Demo.world "missing" false None None None None None
                    None [] Ha)).
  reflexivity.
Defined.

Lemma register_model_request_witness :
  resolves_to Demo.world (inr (Demo.saved_by "1.2.0")) (Demo.saved_by "1.2.0")
  /\ exists w' m,
       _models.register_model (inr (Demo.saved_by "1.2.0")) false None None None None None
         (Some true) [] Demo.world = (w', inr m)
       /\ models.artifact_uri (models.request m) = "gs://my-bucket/my-model".
Proof.
  split; [reflexivity|].
  assert (Hok : match (_models.register_model (inr (Demo.saved_by "1.2.0")) false None None None None
              None (Some true) [] Demo.world).2 with
                      | inr _ => True
                      | inl _ => False
                      end) by (vm_compute; exact I).
  destruct (_models.register_model (inr (Demo.saved_by "1.2.0")) false None None None None
              None (Some true) [] Demo.world) as [w' [e|m]] eqn:E; [destruct Hok|].
  - exists w', m. split; [reflexivity|].
    pose proof (register_model_request Demo.world (inr (Demo.saved_by "1.2.0"))
                  (Demo.saved_by "1.2.0") false None None None None None (Some true) []
                  w' m eq_refl E) as Hreq.
    cbv zeta in Hreq. exact (proj1 Hreq).
Defined.

Lemma register_model_catalog_failure_witness :
  resolves_to Demo.world (inr (Demo.saved_by "1.2.0")) (Demo.saved_by "1.2.0")
  /\ truthy None = false
  /\ (@_models.register_model Cases.libs (inr (Demo.saved_by "1.2.0")) false None None None
        (Some "us-central1") None (Some true) [] Demo.world).2
     = inl (ValueError "No prebuilt container for sklearn").
Proof.
  split; [reflexivity|]. split; [reflexivity|].
  exact (proj1 (@register_model_catalog_failure Cases.libs Demo.world
                  (inr (Demo.saved_by "1.2.0")) (Demo.saved_by "1.2.0") false None None
                  (Some "us-central1") None (Some true) [] None _ eq_refl eq_refl eq_refl)).
Defined.



Lemma config_init_failure_witness :
  @configure Cases.libs [("experiment", PyStr "my-experiment")] (global_config Demo.world)
  = inl (TypeError "init() got an unexpected keyword argument experiment")
  /\ (@vertex_ai.init Cases.libs vertex_ai.global_config (vertex_ai.Passed (Some true))
        [("experiment", PyStr "my-experiment")] Demo.world).2
     = inl (TypeError "init() got an unexpected keyword argument experiment").
Proof.
  split; [reflexivity|].
  exact (proj1 (@config_init_failure Cases.libs vertex_ai.global_config
                  (vertex_ai.Passed (Some true)) [("experiment", PyStr "my-experiment")]
                  Demo.world _ eq_refl)).
Defined.
